(** * Statistics routes of the monitoring server: query building and
      response flattening, and the PUT/GET handlers of configs and workflows.

    The development embeds the statistics routes (query builder and
    response flattener) and the routes by identifier of
    [routes/v1/configs.js] and [routes/v1/workflows.js].

    Conventions of the embedding.
    - A JavaScript string is a [string]: a sequence of code units below 256.
      Concatenation [+] is [append]; [slice] and [toLowerCase] are written
      out below.
    - A value coming from the store or sent to the client is a [jsval]
      (JSON plus [undefined]); objects are association lists in insertion
      order.
    - A request parameter that may be missing is an [option] of a string;
      the [metric] parameter is absent, one string, or a sequence of strings.
    - The body handed to [res.json] is kept as a value; writing it out drops
      the members that are [undefined].
    - A handler is a finite script: it either answers, or calls the store
      and continues with the reply handed to its callback. *)

From Stdlib Require Import List String Ascii Bool Arith ZArith QArith Lia DecimalString.
From Stdlib.Strings Require Import Byte.
Import ListNotations.

Local Close Scope Q_scope.
Local Open Scope list_scope.
Local Open Scope string_scope.

(** The query texts of the source are full of double quotes.  They are
    written here as literals of the scope [js], marked [%js], in which a
    single quote stands for a double quote (and the other way round): the
    source's text ['"aggs": {'] is the literal   'aggs': {   between double
    quotes, followed by [%js].  A literal without the mark is read as it
    stands. *)
Module JsLiteral.

Definition swap_quote (b : byte) : byte :=
  match b with x27 => x22 | x22 => x27 | b => b end.

Definition parse (bs : list byte) : string :=
  string_of_list_byte (map swap_quote bs).

Definition print (s : string) : list byte :=
  map swap_quote (list_byte_of_string s).

End JsLiteral.

Declare Scope js_scope.
Delimit Scope js_scope with js.
String Notation string JsLiteral.parse JsLiteral.print : js_scope.

(** Strings are still printed as they stand. *)
String Notation string string_of_list_byte list_byte_of_string : string_scope.

(* ================================================================== *)
(** ** JavaScript strings *)

Module JsString.

(** [s.slice(start, end)]: negative positions count from the end, both
    positions are clamped to the string, an empty span gives [""]. *)
Definition slice (s : string) (istart iend : Z) : string :=
  let len := Z.of_nat (String.length s) in
  let from := (if istart <? 0 then Z.max (len + istart) 0 else Z.min istart len)%Z in
  let to := (if iend <? 0 then Z.max (len + iend) 0 else Z.min iend len)%Z in
  let span := Z.max (to - from) 0 in
  substring (Z.to_nat from) (Z.to_nat span) s.

(** Upper-case code units below 256: [A]-[Z], and [À]-[Þ] without [×]. *)
Definition is_upper (c : ascii) : bool :=
  let n := nat_of_ascii c in
  (((65 <=? n) && (n <=? 90)) ||
   ((192 <=? n) && (n <=? 222) && negb (n =? 215)))%nat.

Definition lower_char (c : ascii) : ascii :=
  if is_upper c then ascii_of_nat (nat_of_ascii c + 32) else c.

(** [s.toLowerCase()] *)
Fixpoint toLowerCase (s : string) : string :=
  match s with
  | EmptyString => EmptyString
  | String c rest => String (lower_char c) (toLowerCase rest)
  end.

End JsString.

(* ================================================================== *)
(** ** Request parameters *)

(** [req.query.metric]: missing, given once, or repeated. *)
Inductive metric_param :=
| MetricUndefined
| MetricString (name : string)
| MetricArray (names : list string).

(** [is_defined(variable)]: [typeof variable !== 'undefined']. *)
Definition is_defined {A} (variable : option A) : bool :=
  match variable with Some _ => true | None => false end.

Definition metric_is_defined (metric : metric_param) : bool :=
  match metric with MetricUndefined => false | _ => true end.

(** The normalisation both loops start with:
    [if (typeof(x) == "string") { fields[0] = x } else { fields = x }],
    followed by [for (var key in fields)], which visits the indices of an
    array in order and nothing at all for [undefined]. *)
Definition fields_of (field_name : metric_param) : list string :=
  match field_name with
  | MetricString name => [name]
  | MetricArray names => names
  | MetricUndefined => []
  end.

(* ================================================================== *)
(** ** Query builder of the statistics routes *)

Definition date_filter (from to : option string) : string :=
  match from, to with
  | Some from, Some to =>
      "{ " ++
        "'range': {"%js ++
          "'@timestamp': {"%js ++
            "'from': '"%js ++ from ++ "',"%js ++
            "'to': '"%js ++ to ++ "'"%js ++
          "}" ++
        "}" ++
      "}"
  | _, _ => EmptyString
  end.

Definition type_filter (type : option string) : string :=
  match type with
  | Some type =>
      "'query': {"%js ++
        "'filtered': {"%js ++
          "'filter': {"%js ++
            "'type': { 'value': '"%js ++ type ++ "' }"%js ++
          "}" ++
        "}" ++
      "},"
  | None => EmptyString
  end.

(** What one turn of the loop of [aggregation_by] appends for [fields[key]]. *)
Definition aggregation_clauses (field : string) : string :=
  "'"%js ++ field ++ "_Stats' : {"%js ++
    "'extended_stats' : {"%js ++
      "'field' : '"%js ++ field ++ "'"%js ++
    "}" ++
  "}," ++
  "'Minimum_"%js ++ field ++ "': {"%js ++
    "'top_hits': {"%js ++
      "'size': 1,"%js ++
      "'sort': ["%js ++
        "{" ++
          "'"%js ++ field ++ "': {"%js ++
            "'order': 'asc'"%js ++
          "}" ++
        "}" ++
      "]" ++
    "}" ++
  "}," ++
  "'Maximum_"%js ++ field ++ "': {"%js ++
    "'top_hits': {"%js ++
      "'size': 1,"%js ++
      "'sort': ["%js ++
        "{" ++
          "'"%js ++ field ++ "': {"%js ++
            "'order': 'desc'"%js ++
          "}" ++
        "}" ++
      "]" ++
    "}" ++
  "},".

Definition aggregation_by (field_name : metric_param) (type : option string) : string :=
  let query_msg := "{" ++ type_filter type ++ "'aggs': {"%js in
  let query_msg :=
    fold_left (fun query_msg field => query_msg ++ aggregation_clauses field)
              (fields_of field_name) query_msg in
  let query_msg := JsString.slice query_msg 0 (-1) in
  query_msg ++ "}" ++ "}".

Definition filter_and_aggregate_by
    (field_name : metric_param) (from to type host : option string) : string :=
  let filter_type := EmptyString in
  let filter_type :=
    match type with
    | Some type => "{ " ++ "'type': { 'value': '"%js ++ type ++ "' }"%js ++ "},"
    | None => filter_type
    end in
  let filter_type :=
    match host with
    | Some host => filter_type ++ "{ " ++ "'prefix': { 'host': '"%js ++ host ++ "' }"%js ++ "},"
    | None => filter_type
    end in
  "{" ++
    "'aggs': {"%js ++
      "'filtered_stats': {"%js ++
        "'filter': {"%js ++
          "'and': ["%js ++
            filter_type ++
            date_filter from to ++
          "]" ++
        "}," ++
        JsString.slice (aggregation_by field_name None) 1 (-1) ++
      "}" ++
    "}" ++
  "}".

(* ================================================================== *)
(** ** JavaScript values

    The values that [JSON.parse] gives, and [undefined].  An object lists
    its properties in insertion order, each name once. *)

#[warnings="-register-all"]
Inductive jsval :=
| JUndefined
| JNull
| JBool (b : bool)
| JNum (q : Q)
| JStr (s : string)
| JArr (items : list jsval)
| JObj (props : list (string * jsval)).

Inductive js_error := TypeError.

(** A computation that may throw. *)
Inductive result (A : Type) :=
| Return (a : A)
| Throw (e : js_error).

Arguments Return {A} a.
Arguments Throw {A} e.

Definition bind {A B} (r : result A) (k : A -> result B) : result B :=
  match r with
  | Return a => k a
  | Throw e => Throw e
  end.

Notation "x <- r ;; k" := (bind r (fun x => k))
  (at level 61, r at next level, right associativity).

Module JsValue.

(** Own property [k] of an object, [undefined] when there is none. *)
Fixpoint own (k : string) (props : list (string * jsval)) : jsval :=
  match props with
  | [] => JUndefined
  | (k', v) :: rest => if (k' =? k)%string then v else own k rest
  end.

(** [o[k] = v] on the properties of an object: an existing property keeps
    its place, a new one goes last. *)
Fixpoint put (k : string) (v : jsval) (props : list (string * jsval))
  : list (string * jsval) :=
  match props with
  | [] => [(k, v)]
  | (k', v') :: rest =>
      if (k' =? k)%string then (k', v) :: rest else (k', v') :: put k v rest
  end.

(** [o[k][k2] = v], for a member [o[k]] that is an object. *)
Definition put_in (k k2 : string) (v : jsval) (props : list (string * jsval))
  : list (string * jsval) :=
  match own k props with
  | JObj member => put k (JObj (put k2 v member)) props
  | _ => props
  end.

Definition digit (c : ascii) : option nat :=
  let n := nat_of_ascii c in
  if ((48 <=? n) && (n <=? 57))%nat then Some (n - 48)%nat else None.

Fixpoint digits (s : string) (acc : nat) : option nat :=
  match s with
  | EmptyString => Some acc
  | String c rest =>
      match digit c with
      | Some d => digits rest (10 * acc + d)%nat
      | None => None
      end
  end.

(** A property name that is an array index: [0], or digits not starting
    with [0]. *)
Definition array_index (k : string) : option nat :=
  match k with
  | EmptyString => None
  | String c EmptyString => digit c
  | String c _ => if (c =? "0")%char then None else digits k 0
  end.

(** [v[k]].  Reading a property of [undefined] or [null] throws; a missing
    property reads as [undefined].  Inherited properties are left out: the
    handlers read none. *)
Definition get_prop (v : jsval) (k : string) : result jsval :=
  match v with
  | JUndefined | JNull => Throw TypeError
  | JObj props => Return (own k props)
  | JArr items =>
      if (k =? "length")%string then Return (JNum (inject_Z (Z.of_nat (List.length items))))
      else match array_index k with
           | Some i => Return (nth i items JUndefined)
           | None => Return JUndefined
           end
  | JStr s =>
      if (k =? "length")%string then Return (JNum (inject_Z (Z.of_nat (String.length s))))
      else match array_index k with
           | Some i =>
               match String.get i s with
               | Some c => Return (JStr (String c EmptyString))
               | None => Return JUndefined
               end
           | None => Return JUndefined
           end
  | JBool _ | JNum _ => Return JUndefined
  end.

(** [if (v)] *)
Definition truthy (v : jsval) : bool :=
  match v with
  | JUndefined | JNull => false
  | JBool b => b
  | JNum q => negb (Qeq_bool q 0)
  | JStr s => negb (s =? EmptyString)%string
  | JArr _ | JObj _ => true
  end.

(** [v !== s] for a string literal [s]: only a string with the same text is
    strictly equal to it. *)
Definition strict_neq_string (v : jsval) (s : string) : bool :=
  match v with
  | JStr t => negb (t =? s)%string
  | _ => true
  end.

End JsValue.

(** What [==] does with a string, an array or an object on one side and a
    number on the other is the runtime's conversion to a number, which is
    no code of this repository: the development is parametric in it. *)
Class JsRuntime := {
  (** [v == 0] for [v] a string, an array or an object *)
  converts_to_zero : jsval -> bool
}.

(** [v == 0] *)
Definition loose_eq_zero `{JsRuntime} (v : jsval) : bool :=
  match v with
  | JUndefined | JNull => false
  | JBool b => negb b
  | JNum q => Qeq_bool q 0
  | JStr _ | JArr _ | JObj _ => converts_to_zero v
  end.

(* ================================================================== *)
(** ** Requests, the store, and handlers *)

(** [req.params]: a route reads only the segments its path declares. *)
Record params := {
  workflowID : string;
  taskID : string;
  experimentID : string;
  platformID : string;
  id : string
}.

(** [req.query] of the statistics routes. *)
Record query := {
  host : option string;
  metric : metric_param;
  from : option string;
  to : option string
}.

Record request := {
  mf_server : string;        (* req.app.get('mf_server') *)
  req_params : params;       (* req.params *)
  req_query : query;         (* req.query *)
  req_body : jsval           (* req.body *)
}.

(** The same request with other query parameters. *)
Definition with_query (req : request) (q : query) : request :=
  {| mf_server := mf_server req; req_params := req_params req;
     req_query := q; req_body := req_body req |}.

Definition with_range (q : query) (from to : option string) : query :=
  {| host := host q; metric := metric q; from := from; to := to |}.

Definition with_host (q : query) (host : option string) : query :=
  {| host := host; metric := metric q; from := from q; to := to q |}.

(** The same request with other path segments. *)
Definition with_params (req : request) (p : params) : request :=
  {| mf_server := mf_server req; req_params := p;
     req_query := req_query req; req_body := req_body req |}.

(** The calls on [req.app.get('elastic')]. *)
Inductive store_call :=
| IndicesRefresh (index : string)
| Search (index : string) (searchType : string) (body : string)
| Get (index : string) (type : string) (id : string)
| Index (index : string) (type : string) (id : string) (body : jsval).

(** An error object of the store client. *)
Inductive store_error := StoreError (props : list (string * jsval)).

Definition error_json (e : store_error) : jsval :=
  match e with StoreError props => JObj props end.

(** The arguments [(error, response)] of a callback. *)
Record store_reply := {
  error : option store_error;
  response : jsval
}.

Definition error_value (error : option store_error) : jsval :=
  match error with
  | Some e => error_json e
  | None => JUndefined
  end.

(** How a request ends: [res.json(body)] under the status set so far, or an
    exception that leaves the callback with no answer sent. *)
Inductive outcome :=
| Json (status : Z) (body : jsval)
| Uncaught (e : js_error).

(** A handler: answer, or call the store and go on in the callback. *)
Inductive handler :=
| Respond (o : outcome)
| Call (c : store_call) (callback : store_reply -> handler).

(** Run a handler against the replies of the store, in order: the calls
    made, and the outcome if the handler got that far. *)
Fixpoint run (h : handler) (replies : list store_reply)
  : list store_call * option outcome :=
  match h with
  | Respond o => ([], Some o)
  | Call c callback =>
      match replies with
      | [] => ([c], None)
      | reply :: replies =>
          let (calls, o) := run (callback reply) replies in
          (c :: calls, o)
      end
  end.

(* ================================================================== *)
(** ** Response flattener and statistics routes *)

Section Statistics.

Context `{JsRuntime}.

(** One turn of the loop [for (var key in metrics)] in the callback of
    [client.search]: the object pushed on [answers] for [metrics[key]]. *)
Definition answer_for (mf_server workflowID : string) (from to : option string)
    (response : jsval) (metric : string) : result jsval :=
  let answer := [] in
  aggs <- JsValue.get_prop response "aggregations" ;;
  let answer := JsValue.put "workflow" (JObj []) answer in
  let answer :=
    JsValue.put_in "workflow" "href"
      (JStr (mf_server ++ "/workflows/" ++ workflowID)) answer in
  let answer := JsValue.put "metric" (JStr metric) answer in
  aggs <- (if is_defined from && is_defined to
           then JsValue.get_prop aggs "filtered_stats"
           else Return aggs) ;;
  minimum <- JsValue.get_prop aggs ("Minimum_" ++ metric) ;;
  hits <- JsValue.get_prop minimum "hits" ;;
  total <- JsValue.get_prop hits "total" ;;
  if loose_eq_zero total then
    let json := [] in
    let json := JsValue.put "error" (JStr "response is empty for the metric") json in
    Return (JObj json)
  else
    statistics <- JsValue.get_prop aggs (metric ++ "_Stats") ;;
    let answer := JsValue.put "statistics" statistics answer in
    minimum <- JsValue.get_prop aggs ("Minimum_" ++ metric) ;;
    hits <- JsValue.get_prop minimum "hits" ;;
    hits <- JsValue.get_prop hits "hits" ;;
    first <- JsValue.get_prop hits "0" ;;
    source <- JsValue.get_prop first "_source" ;;
    let answer := JsValue.put "min" source answer in
    maximum <- JsValue.get_prop aggs ("Maximum_" ++ metric) ;;
    hits <- JsValue.get_prop maximum "hits" ;;
    hits <- JsValue.get_prop hits "hits" ;;
    first <- JsValue.get_prop hits "0" ;;
    source <- JsValue.get_prop first "_source" ;;
    let answer := JsValue.put "max" source answer in
    Return (JObj answer).

(** The loop itself: [answers.push] at each turn, in the order of [metrics]. *)
Fixpoint flatten_loop (mf_server workflowID : string) (from to : option string)
    (response : jsval) (metrics : list string) (answers : list jsval)
  : result (list jsval) :=
  match metrics with
  | [] => Return answers
  | metric :: metrics =>
      answer <- answer_for mf_server workflowID from to response metric ;;
      flatten_loop mf_server workflowID from to response metrics (answers ++ [answer])%list
  end.

Definition handle_response (req : request) (index : string) (type : option string)
  : handler :=
  let mf_server := mf_server req ++ "/mf" in
  let workflowID := JsString.toLowerCase (workflowID (req_params req)) in
  let host := host (req_query req) in
  let metric := metric (req_query req) in
  let from := from (req_query req) in
  let to := to (req_query req) in
  let body := aggregation_by metric type in
  if negb (metric_is_defined metric) then
    let error :=
      JObj [("error", JObj [("message", JStr "parameter metric is missing")])] in
    Respond (Json 200 error)
  else
    let body :=
      if is_defined from && is_defined to
      then filter_and_aggregate_by metric from to type host
      else body in
    Call (IndicesRefresh index) (fun reply =>
      match error reply with
      | Some error => Respond (Json 200 (error_json error))
      | None =>
          Call (Search index "count" body) (fun reply =>
            match error reply with
            | Some error => Respond (Json 200 (error_json error))
            | None =>
                let metrics := fields_of metric in
                match flatten_loop mf_server workflowID from to
                        (response reply) metrics [] with
                | Return answers => Respond (Json 200 (JArr answers))
                | Throw e => Respond (Uncaught e)
                end
            end)
      end).

(** [router.get('/:workflowID')] *)
Definition get_workflow_statistics (req : request) : handler :=
  let workflowID := JsString.toLowerCase (workflowID (req_params req)) in
  let index := workflowID ++ "_*" in
  handle_response req index None.

(** [router.get('/:workflowID/:taskID')] *)
Definition get_task_statistics (req : request) : handler :=
  let workflowID := JsString.toLowerCase (workflowID (req_params req)) in
  let taskID := JsString.toLowerCase (taskID (req_params req)) in
  let index := workflowID ++ "_" ++ taskID in
  handle_response req index None.

(** [router.get('/:workflowID/:taskID/:experimentID')] *)
Definition get_experiment_statistics (req : request) : handler :=
  let workflowID := JsString.toLowerCase (workflowID (req_params req)) in
  let taskID := JsString.toLowerCase (taskID (req_params req)) in
  let type := experimentID (req_params req) in
  let index := workflowID ++ "_" ++ taskID in
  handle_response req index (Some type).

End Statistics.

(* ================================================================== *)
(** ** configs.js and workflows.js: fetch and store by identifier *)

Module Configs.

(** [router.get('/:platformID')] *)
Definition get_platform (req : request) : handler :=
  let platformID := JsString.toLowerCase (platformID (req_params req)) in
  let json := [] in
  Call (Get "mf" "configurations" platformID) (fun reply =>
    match JsValue.get_prop (response reply) "found" with
    | Throw e => Respond (Uncaught e)
    | Return found =>
        if JsValue.truthy found then
          match JsValue.get_prop (response reply) "_source" with
          | Throw e => Respond (Uncaught e)
          | Return source => Respond (Json 200 source)
          end
        else
          let json :=
            JsValue.put "error"
              (JStr ("Configuration for the platform'" ++ platformID ++ "' is not found."))
              json in
          Respond (Json 200 (JObj json))
    end).

(** [router.put('/:platformID')] *)
Definition put_platform (req : request) : handler :=
  let platformID := JsString.toLowerCase (platformID (req_params req)) in
  let mf_server := mf_server req in
  let json := [] in
  Call (Index "mf" "configurations" platformID (req_body req)) (fun reply =>
    if JsValue.strict_neq_string (error_value (error reply)) "undefined" then
      let json := JsValue.put "href" (JStr (mf_server ++ "/mf/configs/" ++ platformID)) json in
      Respond (Json 200 (JObj json))
    else
      let json := JsValue.put "error" (JStr "Could not change the configuration.") json in
      Respond (Json 500 (JObj json))).

End Configs.

Module Workflows.

(** [router.get('/:id')] *)
Definition get_workflow (req : request) : handler :=
  let id := JsString.toLowerCase (id (req_params req)) in
  let json := [] in
  Call (Get "mf" "workflows" id) (fun reply =>
    match JsValue.get_prop (response reply) "found" with
    | Throw e => Respond (Uncaught e)
    | Return found =>
        if JsValue.truthy found then
          match JsValue.get_prop (response reply) "_source" with
          | Throw e => Respond (Uncaught e)
          | Return source => Respond (Json 200 source)
          end
        else
          let json :=
            JsValue.put "error" (JStr ("Workflow with the ID '" ++ id ++ "' not found."))
              json in
          Respond (Json 200 (JObj json))
    end).

(** [router.put('/:id')] *)
Definition put_workflow (req : request) : handler :=
  let id := JsString.toLowerCase (id (req_params req)) in
  let mf_server := mf_server req in
  let json := [] in
  Call (Index "mf" "workflows" id (req_body req)) (fun reply =>
    if JsValue.strict_neq_string (error_value (error reply)) "undefined" then
      let json := JsValue.put "href" (JStr (mf_server ++ "/mf/workflows/" ++ id)) json in
      Respond (Json 200 (JObj json))
    else
      let json := JsValue.put "error" (JStr "Could not create the workflow.") json in
      Respond (Json 500 (JObj json))).

End Workflows.

(* ================================================================== *)
(** ** The shape of a query, as the specification words it

    These definitions are not translated from the source: they say, as a
    tree, which clauses a query text is expected to hold, and [render]
    writes the tree with the punctuation of the source.  The theorems
    compare the text built by the source with the rendering of a tree. *)

Module Shape.


Inductive sort_order := Asc | Desc.

(** A named aggregation clause. *)
Inductive clause :=
| ExtendedStats (name field : string)
| TopHits (name : string) (size : nat) (sort_field : string) (order : sort_order).

(** A document filter. *)
Inductive filter :=
| TypeIs (value : string)
| HostPrefix (prefix : string)
| TimestampRange (from to : string).

Inductive query_shape :=
(** the clauses at the root of the query, under a top-level type filter if any *)
| AtRoot (type : option string) (aggs : list clause)
(** the clauses inside one filter aggregation named [name] *)
| Nested (name : string) (filters : list filter) (aggs : list clause).

Definition decimal (n : nat) : string :=
  DecimalString.NilEmpty.string_of_uint (Nat.to_uint n).

Definition render_order (o : sort_order) : string :=
  match o with Asc => "asc" | Desc => "desc" end.

Definition render_clause (c : clause) : string :=
  match c with
  | ExtendedStats name field =>
      "'"%js ++ name ++ "' : {'extended_stats' : {'field' : '"%js ++ field ++ "'}}"%js
  | TopHits name size sort_field order =>
      "'"%js ++ name ++ "': {'top_hits': {'size': "%js ++ decimal size ++
      ",'sort': [{'"%js ++ sort_field ++ "': {'order': '"%js ++ render_order order ++ "'}}]}}"%js
  end.

Definition render_filter (f : filter) : string :=
  match f with
  | TypeIs value => "{ 'type': { 'value': '"%js ++ value ++ "' }}"%js
  | HostPrefix prefix => "{ 'prefix': { 'host': '"%js ++ prefix ++ "' }}"%js
  | TimestampRange from to =>
      "{ 'range': {'@timestamp': {'from': '"%js ++ from ++ "','to': '"%js ++ to ++ "'}}}"%js
  end.

Definition render_aggs (aggs : list clause) : string :=
  "'aggs': {"%js ++ String.concat "," (map render_clause aggs) ++ "}".

Definition render (q : query_shape) : string :=
  match q with
  | AtRoot None aggs => "{" ++ render_aggs aggs ++ "}"
  | AtRoot (Some type) aggs =>
      "{'query': {'filtered': {'filter': {'type': { 'value': '"%js ++ type ++ "' }}}},"%js ++
      render_aggs aggs ++ "}"
  | Nested name filters aggs =>
      "{'aggs': {'"%js ++ name ++ "': {'filter': {'and': ["%js ++
      String.concat "," (map render_filter filters) ++ "]}," ++
      render_aggs aggs ++ "}}}"
  end.


(** The three clauses of a metric. *)
Definition metric_clauses (m : string) : list clause :=
  [ ExtendedStats (m ++ "_Stats") m;
    TopHits ("Minimum_" ++ m) 1 m Asc;
    TopHits ("Maximum_" ++ m) 1 m Desc ].

Definition optional {A B} (f : A -> B) (o : option A) : list B :=
  match o with Some a => [f a] | None => [] end.

End Shape.

(* ================================================================== *)
(** ** The flattener, as the specification words it

    Again not translated from the source: the aggregation root is resolved
    once, and each metric is summarised from that root.  The theorems
    compare the loop of the source with these. *)

Module Flatten.

(** Follow property names from a value, left to right. *)
Fixpoint get_path (v : jsval) (path : list string) : result jsval :=
  match path with
  | [] => Return v
  | k :: path => v' <- JsValue.get_prop v k ;; get_path v' path
  end.

(** Apply [f] to each element in order; the first exception ends it. *)
Fixpoint map_result {A B} (f : A -> result B) (l : list A) : result (list B) :=
  match l with
  | [] => Return []
  | a :: l => b <- f a ;; bs <- map_result f l ;; Return (b :: bs)
  end.

(** The node the per-metric results are read from: under a time range the
    [filtered_stats] node of the aggregations, else the aggregations. *)
Definition aggregation_root (time_range : bool) (response : jsval) : result jsval :=
  aggs <- JsValue.get_prop response "aggregations" ;;
  if time_range then JsValue.get_prop aggs "filtered_stats" else Return aggs.

Definition empty_summary : jsval :=
  JObj [("error", JStr "response is empty for the metric")].

Definition full_summary (href metric : string) (statistics min max : jsval) : jsval :=
  JObj [("workflow", JObj [("href", JStr href)]);
        ("metric", JStr metric);
        ("statistics", statistics);
        ("min", min);
        ("max", max)].

(** The summary of one metric read from [root]. *)
Definition summary_at `{JsRuntime} (href : string) (root : jsval) (metric : string)
  : result jsval :=
  total <- get_path root ["Minimum_" ++ metric; "hits"; "total"] ;;
  if loose_eq_zero total then Return empty_summary
  else
    statistics <- get_path root [metric ++ "_Stats"] ;;
    min <- get_path root ["Minimum_" ++ metric; "hits"; "hits"; "0"; "_source"] ;;
    max <- get_path root ["Maximum_" ++ metric; "hits"; "hits"; "0"; "_source"] ;;
    Return (full_summary href metric statistics min max).

(** How the callback of [client.search] ends on the result of the loop. *)
Definition answered (answers : result (list jsval)) : outcome :=
  match answers with
  | Return answers => Json 200 (JArr answers)
  | Throw e => Uncaught e
  end.

End Flatten.

(* ================================================================== *)
(** ** Identifiers that differ only in letter case

    Not translated from the source either: what it means for two path
    segments to be the same but for the case of their letters. *)

Module LetterCase.




End LetterCase.

(* ================================================================== *)
(** ** Concrete inputs for the examples *)

Module Examples.

(** A runtime for examples in which every hit count is a number: the
    conversion is never consulted there. *)
Definition runtime : JsRuntime := {| converts_to_zero := fun _ => false |}.

Definition no_params : params :=
  {| workflowID := EmptyString; taskID := EmptyString; experimentID := EmptyString;
     platformID := EmptyString; id := EmptyString |}.

(** [GET /statistics/MS2?...] on a server at [http://mf:3030/v1]. *)
Definition statistics_request (q : query) : request :=
  {| mf_server := "http://mf:3030/v1";
     req_params :=
       {| workflowID := "MS2"; taskID := EmptyString; experimentID := EmptyString;
          platformID := EmptyString; id := EmptyString |};
     req_query := q;
     req_body := JUndefined |}.

(** The reply of a call that went well. *)
Definition ok (response : jsval) : store_reply :=
  {| error := None; response := response |}.

(** The reply of a call that failed. *)
Definition failed (message : string) : store_reply :=
  {| error := Some (StoreError [("message", JStr message)]); response := JUndefined |}.

(** The result of a top-hits clause: [total] hits, the best one returned. *)
Definition top_hits (total : Z) (sources : list jsval) : jsval :=
  JObj [("hits",
         JObj [("total", JNum (inject_Z total));
               ("hits", JArr (map (fun source => JObj [("_source", source)]) sources))])].

(** Aggregations in which metric [A] has three samples and [B] none. *)
Definition aggregations : jsval :=
  JObj [("A_Stats", JObj [("count", JNum (inject_Z 3))]);
        ("Minimum_A", top_hits 3 [JObj [("A", JNum (inject_Z 1))]]);
        ("Maximum_A", top_hits 3 [JObj [("A", JNum (inject_Z 9))]]);
        ("B_Stats", JObj [("count", JNum (inject_Z 0))]);
        ("Minimum_B", top_hits 0 []);
        ("Maximum_B", top_hits 0 [])].

(** The response to a query without a time range, and to one with. *)
Definition response_at_root : jsval := JObj [("aggregations", aggregations)].

Definition response_filtered : jsval :=
  JObj [("aggregations",
         JObj [("filtered_stats",
                match aggregations with
                | JObj props => JObj (("doc_count", JNum (inject_Z 3)) :: props)
                | other => other
                end)])].

(** What the flattener is expected to answer for [A] and for [B]. *)
Definition summary_A : jsval :=
  JObj [("workflow", JObj [("href", JStr "http://mf:3030/v1/mf/workflows/ms2")]);
        ("metric", JStr "A");
        ("statistics", JObj [("count", JNum (inject_Z 3))]);
        ("min", JObj [("A", JNum (inject_Z 1))]);
        ("max", JObj [("A", JNum (inject_Z 9))])].

Definition summary_B : jsval :=
  JObj [("error", JStr "response is empty for the metric")].

Definition metrics_only (metric : metric_param) : query :=
  {| host := None; metric := metric; from := None; to := None |}.

End Examples.

(* ================================================================== *)
(** ** The list routes of configs.js and workflows.js

    [router.get('/')] of both files and their [get_details].  They throw a
    second kind of exception and hand errors to [next], so they have a
    script type of their own. *)

Module Listing.

Inductive thrown := ThrownTypeError | ThrownSyntaxError.

(** A computation that may throw either. *)
Inductive attempt (A : Type) :=
| Got (a : A)
| Raised (e : thrown).

Arguments Got {A} a.
Arguments Raised {A} e.

Definition and_then {A B} (r : attempt A) (k : A -> attempt B) : attempt B :=
  match r with
  | Got a => k a
  | Raised e => Raised e
  end.

(** [v[k]] *)
Definition read (v : jsval) (k : string) : attempt jsval :=
  match JsValue.get_prop v k with
  | Return x => Got x
  | Throw TypeError => Raised ThrownTypeError
  end.

(** What [JSON.stringify] followed by [JSON.parse] makes of a value that is
    not [undefined]: a member that is [undefined] is left out of an object
    and becomes [null] in an array. *)
Fixpoint copy (v : jsval) : jsval :=
  match v with
  | JArr items =>
      JArr (map (fun x => match x with JUndefined => JNull | _ => copy x end) items)
  | JObj props =>
      JObj ((fix members (props : list (string * jsval)) :=
               match props with
               | [] => []
               | (k, x) :: rest =>
                   match x with
                   | JUndefined => members rest
                   | _ => (k, copy x) :: members rest
                   end
               end) props)
  | _ => v
  end.

(** [JSON.parse(JSON.stringify(v))]: [JSON.stringify(undefined)] is
    [undefined], which [JSON.parse] refuses. *)
Definition json_copy (v : jsval) : attempt jsval :=
  match v with
  | JUndefined => Raised ThrownSyntaxError
  | _ => Got (copy v)
  end.

(** The values [results[key]] for [key] in [Object.keys(results)], in order. *)
Definition own_values (results : jsval) : attempt (list jsval) :=
  match results with
  | JUndefined | JNull => Raised ThrownTypeError
  | JBool _ | JNum _ => Got []
  | JStr s => Got (map (fun c => JStr (String c EmptyString)) (list_ascii_of_string s))
  | JArr items => Got items
  | JObj props => Got (map snd props)
  end.

(** The values [o[i]] for [i] in [for (var i in o)], in order: nothing for
    [undefined], [null], a boolean or a number. *)
Definition enumerated_values (o : jsval) : list jsval :=
  match o with
  | JUndefined | JNull | JBool _ | JNum _ => []
  | JStr s => map (fun c => JStr (String c EmptyString)) (list_ascii_of_string s)
  | JArr items => items
  | JObj props => map snd props
  end.

Fixpoint decimal_value (s : string) (acc : N) : option N :=
  match s with
  | EmptyString => Some acc
  | String c rest =>
      match JsValue.digit c with
      | Some d => decimal_value rest (10 * acc + N.of_nat d)%N
      | None => None
      end
  end.

(** A property name that is an array index: [0] or digits not starting
    with [0], below [2^32 - 1].  An object lists such names first, in
    ascending order. *)
Definition index_key (k : string) : option N :=
  match k with
  | EmptyString => None
  | String c rest =>
      if (negb (rest =? EmptyString)%string && (c =? "0")%char)%bool then None
      else if (10 <? String.length k)%nat then None
      else match decimal_value k 0 with
           | Some n => if (n <? 4294967295)%N then Some n else None
           | None => None
           end
  end.

Fixpoint has (k : string) (props : list (string * jsval)) : bool :=
  match props with
  | [] => false
  | (k', _) :: rest => (k' =? k)%string || has k rest
  end.

(** A new index [n] goes before the first name that is no index or a
    larger one. *)
Fixpoint insert_index (n : N) (k : string) (v : jsval)
    (props : list (string * jsval)) : list (string * jsval) :=
  match props with
  | [] => [(k, v)]
  | (k', v') :: rest =>
      match index_key k' with
      | Some n' =>
          if (n <? n')%N then (k, v) :: props
          else (k', v') :: insert_index n k v rest
      | None => (k, v) :: props
      end
  end.

(** [o[k] = v] on an object made by [{}], for any name [k]: [__proto__]
    sets no property of its own, an existing property keeps its place, a
    new index goes among the indices and any other new name last. *)
Definition define (k : string) (v : jsval) (props : list (string * jsval))
  : list (string * jsval) :=
  if (k =? "__proto__")%string then props
  else if has k props then JsValue.put k v props
  else match index_key k with
       | Some n => insert_index n k v props
       | None => JsValue.put k v props
       end.

(** The conversion of a number, an array or an object to a property name
    is the runtime's, and no code of this repository. *)
Class JsNames := {
  (** [String(v)] for [v] a number, an array or an object *)
  name_of : jsval -> string
}.

(** The property name [o[v]] stands for. *)
Definition property_key `{JsNames} (v : jsval) : string :=
  match v with
  | JStr s => s
  | JUndefined => "undefined"
  | JNull => "null"
  | JBool true => "true"
  | JBool false => "false"
  | JNum _ | JArr _ | JObj _ => name_of v
  end.

(** [v === 0] *)
Definition strict_eq_zero (v : jsval) : bool :=
  match v with
  | JNum q => Qeq_bool q 0
  | _ => false
  end.

(** The two calls of a list route: [client.search] with
    [searchType: 'count'], and with [size]. *)
Inductive search_call :=
| SearchCount (index type : string)
| SearchSize (index type : string) (size : jsval).

(** How a list request ends: [res.json(body)], [next(error)], both under
    the status set so far, or an exception leaving the callback. *)
Inductive ending :=
| Sent (status : Z) (body : jsval)
| Forwarded (status : Z) (error : store_error)
| Crashed (e : thrown).

Inductive script :=
| Finish (e : ending)
| Ask (c : search_call) (callback : store_reply -> script).

Fixpoint play (s : script) (replies : list store_reply)
  : list search_call * option ending :=
  match s with
  | Finish e => ([], Some e)
  | Ask c callback =>
      match replies with
      | [] => ([c], None)
      | reply :: replies =>
          let (calls, e) := play (callback reply) replies in
          (c :: calls, e)
      end
  end.

End Listing.

Notation "x <~ r ;; k" := (Listing.and_then r (fun x => k))
  (at level 61, r at next level, right associativity).

Module ConfigsList.

Import Listing.

Section Details.

Context `{JsNames}.

(** The callback of [keys.forEach] in [get_details]: [response] after the
    turn for one element of [results]. *)
Definition add_details (response : list (string * jsval)) (hit : jsval)
  : attempt (list (string * jsval)) :=
  source <~ read hit "_source" ;;
  item <~ json_copy source ;;
  _id <~ read hit "_id" ;;
  Got (define (property_key _id) item response).

Fixpoint for_each (hits : list jsval) (response : list (string * jsval))
  : attempt (list (string * jsval)) :=
  match hits with
  | [] => Got response
  | hit :: hits => response <~ add_details response hit ;; for_each hits response
  end.

Definition get_details (results : jsval) : attempt jsval :=
  keys <~ own_values results ;;
  response <~ for_each keys [] ;;
  Got (JObj response).

(** [router.get('/')] *)
Definition get_all : script :=
  let size := JNum (inject_Z 100) in
  let json := [] in
  Ask (SearchCount "mf" "configurations") (fun reply =>
    match error reply with
    | Some error => Finish (Forwarded 500 error)
    | None =>
        match
          (hits <~ read (response reply) "hits" ;;
           match hits with
           | JUndefined => Got size
           | _ => read hits "total"
           end)
        with
        | Raised e => Finish (Crashed e)
        | Got size =>
            if strict_eq_zero size then
              let json := JsValue.put "error" (JStr "No configurations found.") json in
              Finish (Sent 404 (JObj json))
            else
              Ask (SearchSize "mf" "configurations" size) (fun reply =>
                match error reply with
                | Some error => Finish (Forwarded 500 error)
                | None =>
                    match
                      (hits <~ read (response reply) "hits" ;;
                       match hits with
                       | JUndefined => Got (JObj json)
                       | _ => results <~ read hits "hits" ;; get_details results
                       end)
                    with
                    | Raised e => Finish (Crashed e)
                    | Got json => Finish (Sent 200 json)
                    end
                end)
        end
    end).

End Details.

End ConfigsList.

Module WorkflowsList.

Import Listing.

Section Details.

Context `{JsNames}.

(** The loop [for (var i in source.tasks)]: [item.tasks] after
    [item.tasks.push(source.tasks[i].name)] for each task. *)
Fixpoint push_names (tasks : list jsval) (names : list jsval) : attempt (list jsval) :=
  match tasks with
  | [] => Got names
  | task :: tasks =>
      name <~ read task "name" ;;
      push_names tasks (names ++ [name])%list
  end.

(** The callback of [keys.forEach] in [get_details].  Only an object has
    [tasks], so [item], the copy of [source], is an object where
    [item.tasks] is set: the case of another [item] is never reached. *)
Definition add_details (response : list (string * jsval)) (hit : jsval)
  : attempt (list (string * jsval)) :=
  source <~ read hit "_source" ;;
  item <~ json_copy source ;;
  tasks <~ read source "tasks" ;;
  item <~ match tasks with
          | JUndefined => Got item
          | _ =>
              match item with
              | JObj members =>
                  let members := JsValue.put "tasks" (JArr []) members in
                  names <~ push_names (enumerated_values tasks) [] ;;
                  Got (JObj (JsValue.put "tasks" (JArr names) members))
              | _ => Got item
              end
          end ;;
  _id <~ read hit "_id" ;;
  Got (define (property_key _id) item response).

Fixpoint for_each (hits : list jsval) (response : list (string * jsval))
  : attempt (list (string * jsval)) :=
  match hits with
  | [] => Got response
  | hit :: hits => response <~ add_details response hit ;; for_each hits response
  end.

Definition get_details (results : jsval) : attempt jsval :=
  keys <~ own_values results ;;
  response <~ for_each keys [] ;;
  Got (JObj response).

(** [router.get('/')] *)
Definition get_all : script :=
  let size := JNum (inject_Z 1000) in
  let json := [] in
  Ask (SearchCount "mf" "workflows") (fun reply =>
    match error reply with
    | Some error => Finish (Forwarded 500 error)
    | None =>
        match
          (hits <~ read (response reply) "hits" ;;
           match hits with
           | JUndefined => Got size
           | _ => read hits "total"
           end)
        with
        | Raised e => Finish (Crashed e)
        | Got size =>
            if strict_eq_zero size then
              let json := JsValue.put "error" (JStr "No workflows found.") json in
              Finish (Sent 404 (JObj json))
            else
              Ask (SearchSize "mf" "workflows" size) (fun reply =>
                match error reply with
                | Some error => Finish (Forwarded 500 error)
                | None =>
                    match
                      (hits <~ read (response reply) "hits" ;;
                       match hits with
                       | JUndefined => Got (JObj json)
                       | _ => results <~ read hits "hits" ;; get_details results
                       end)
                    with
                    | Raised e => Finish (Crashed e)
                    | Got json => Finish (Sent 200 json)
                    end
                end)
        end
    end).

End Details.

End WorkflowsList.

(* ================================================================== *)
(** ** Documents and listings, for the statements about the list routes

    Not translated from the source: what a document without [undefined] is,
    and which of several documents of one identifier a listing shows. *)

Module Documents.

(** No [undefined] anywhere in the value: what [JSON.parse] gives. *)
Fixpoint has_no_undefined (v : jsval) : bool :=
  match v with
  | JUndefined => false
  | JArr items => forallb has_no_undefined items
  | JObj props =>
      (fix members (props : list (string * jsval)) : bool :=
         match props with
         | [] => true
         | (_, x) :: rest => has_no_undefined x && members rest
         end) props
  | _ => true
  end.



(** A reply without error whose response holds [hits] with this total. *)
Definition counts (reply : store_reply) (total : jsval) : Prop :=
  error reply = None /\
  exists hits, JsValue.get_prop (response reply) "hits" = Return (JObj hits) /\
               JsValue.own "total" hits = total.

End Documents.

Module ListingExamples.

(** A runtime for examples in which every identifier is a string: the
    conversion is never consulted there. *)
Definition names : Listing.JsNames := {| Listing.name_of := fun _ => EmptyString |}.

Definition hit (id : string) (source : jsval) : jsval :=
  JObj [("_index", JStr "mf"); ("_id", JStr id); ("_source", source)].

Definition count (total : Z) : jsval :=
  JObj [("hits", JObj [("total", JNum (inject_Z total)); ("hits", JArr [])])].

Definition found (total : Z) (hits : list jsval) : jsval :=
  JObj [("hits", JObj [("total", JNum (inject_Z total)); ("hits", JArr hits)])].

Definition node01 : jsval :=
  JObj [("mf_plugin_CPU_perf",
         JObj [("status", JStr "on"); ("MIPS", JStr "on")])].


Definition ms2 : jsval :=
  JObj [("application", JStr "Molecular Dynamics");
        ("tasks",
         JArr [JObj [("name", JStr "T1"); ("exec", JStr "/bin/t1")];
               JObj [("name", JStr "T2.1"); ("previous", JStr "T1")]])].

Definition ms2_listed : jsval :=
  JObj [("application", JStr "Molecular Dynamics");
        ("tasks", JArr [JStr "T1"; JStr "T2.1"])].

(** Aggregations in which metric [A] counts three samples and no hit
    came back. *)
Definition response_without_hit : jsval :=
  JObj [("aggregations",
         JObj [("A_Stats", JObj [("count", JNum (inject_Z 3))]);
               ("Minimum_A", Examples.top_hits 3 []);
               ("Maximum_A", Examples.top_hits 3 [])])].

End ListingExamples.

(* ================================================================== *)
(** ** Induction on values *)

Section ValueInduction.

Variable P : jsval -> Prop.

Hypothesis P_undefined : P JUndefined.
Hypothesis P_null : P JNull.
Hypothesis P_bool : forall b, P (JBool b).
Hypothesis P_num : forall q, P (JNum q).
Hypothesis P_str : forall s, P (JStr s).
Hypothesis P_arr : forall items, Forall P items -> P (JArr items).
Hypothesis P_obj : forall props, Forall (fun p => P (snd p)) props -> P (JObj props).

Fixpoint jsval_induction (v : jsval) : P v :=
  match v with
  | JUndefined => P_undefined
  | JNull => P_null
  | JBool b => P_bool b
  | JNum q => P_num q
  | JStr s => P_str s
  | JArr items =>
      P_arr items
        ((fix all (l : list jsval) : Forall P l :=
            match l with
            | [] => Forall_nil P
            | x :: l => Forall_cons x (jsval_induction x) (all l)
            end) items)
  | JObj props =>
      P_obj props
        ((fix all (l : list (string * jsval)) : Forall (fun p => P (snd p)) l :=
            match l with
            | [] => Forall_nil _
            | p :: l => Forall_cons p (jsval_induction (snd p)) (all l)
            end) props)
  end.

End ValueInduction.

(* ================================================================== *)
(** * Properties *)

(** ** Strings: concatenation and [slice] *)

Module StringFacts.

Lemma append_assoc (a b c : string) : (a ++ b) ++ c = a ++ (b ++ c).
Proof. induction a as [|x a IH]; simpl; [reflexivity | now rewrite IH]. Qed.

Lemma append_nil_r (a : string) : a ++ EmptyString = a.
Proof. induction a as [|x a IH]; simpl; [reflexivity | now rewrite IH]. Qed.

Lemma length_append (a b : string) :
  String.length (a ++ b) = (String.length a + String.length b)%nat.
Proof. induction a as [|x a IH]; simpl; [reflexivity | now rewrite IH]. Qed.

Lemma substring_prefix (a b : string) :
  substring 0 (String.length a) (a ++ b) = a.
Proof.
  induction a as [|x a IH]; simpl.
  - now destruct b.
  - now rewrite IH.
Qed.

(** [slice(0, -1)] takes the last code unit off. *)
Lemma slice_drop_last (a : string) (c : ascii) :
  JsString.slice (a ++ String c EmptyString) 0 (-1) = a.
Proof.
  unfold JsString.slice.
  rewrite length_append; simpl String.length.
  replace (Z.ltb 0 0) with false by reflexivity.
  replace (Z.ltb (-1) 0) with true by reflexivity.
  set (n := String.length a).
  replace (Z.min 0 (Z.of_nat (n + 1))) with 0%Z by lia.
  replace (Z.max (Z.of_nat (n + 1) + -1) 0) with (Z.of_nat n) by lia.
  replace (Z.max (Z.of_nat n - 0) 0) with (Z.of_nat n) by lia.
  rewrite Nat2Z.id. simpl Z.to_nat.
  apply substring_prefix.
Qed.

(** [slice(1, -1)] takes the first and the last code unit off. *)
Lemma slice_strip (a : string) (c d : ascii) :
  JsString.slice (String c (a ++ String d EmptyString)) 1 (-1) = a.
Proof.
  unfold JsString.slice.
  simpl String.length. rewrite length_append; simpl String.length.
  replace (Z.ltb 1 0) with false by reflexivity.
  replace (Z.ltb (-1) 0) with true by reflexivity.
  set (n := String.length a).
  replace (Z.min 1 (Z.of_nat (S (n + 1)))) with 1%Z by lia.
  replace (Z.max (Z.of_nat (S (n + 1)) + -1) 0) with (Z.of_nat (n + 1)) by lia.
  replace (Z.max (Z.of_nat (n + 1) - 1) 0) with (Z.of_nat n) by lia.
  rewrite Nat2Z.id.
  change (Z.to_nat 1) with 1%nat. simpl substring.
  apply substring_prefix.
Qed.

(** A loop that appends to its accumulator. *)
Lemma fold_left_append {A} (f : A -> string) (l : list A) (init : string) :
  fold_left (fun acc x => acc ++ f x) l init =
  init ++ fold_right (fun x rest => f x ++ rest) EmptyString l.
Proof.
  revert init; induction l as [|x l IH]; intros init; simpl.
  - now rewrite append_nil_r.
  - now rewrite IH, append_assoc.
Qed.

(** Pieces each followed by a comma are the pieces joined by commas, and
    one comma more. *)
Lemma trailing_commas (pieces : list string) :
  pieces <> [] ->
  fold_right (fun p rest => p ++ "," ++ rest) EmptyString pieces =
  String.concat "," pieces ++ ",".
Proof.
  induction pieces as [|p pieces IH]; [congruence|]; intros _.
  destruct pieces as [|p' pieces].
  - reflexivity.
  - change (String.concat "," (p :: p' :: pieces))
      with (p ++ "," ++ String.concat "," (p' :: pieces)).
    cbn [fold_right] in *.
    rewrite IH by congruence.
    now rewrite !append_assoc.
Qed.

Lemma trailing_app (pieces more : list string) :
  fold_right (fun p rest => p ++ "," ++ rest) EmptyString (pieces ++ more)%list =
  fold_right (fun p rest => p ++ "," ++ rest) EmptyString pieces ++
  fold_right (fun p rest => p ++ "," ++ rest) EmptyString more.
Proof.
  induction pieces as [|p pieces IH]; [reflexivity|].
  cbn [app fold_right]. rewrite IH. now rewrite !append_assoc.
Qed.

End StringFacts.

(** Right-nest every concatenation and expose the literals. *)
Ltac string_normalize :=
  repeat rewrite StringFacts.append_assoc; cbn [append].

(** ** The query builder *)

Section QueryBuilder.

Import Shape.

(** One turn of the loop writes the three clauses of the metric, a comma
    after each. *)
Lemma aggregation_clauses_text (field : string) :
  aggregation_clauses field =
  fold_right (fun p rest => p ++ "," ++ rest) EmptyString
             (map render_clause (metric_clauses field)).
Proof.
  unfold aggregation_clauses, metric_clauses, render_clause, render_order, decimal.
  cbn [map fold_right Nat.to_uint Init.Nat.to_little_uint Decimal.rev
       Decimal.revapp Decimal.Little.succ NilEmpty.string_of_uint].
  string_normalize. reflexivity.
Qed.

Lemma loop_text (fields : list string) :
  fold_right (fun field rest => aggregation_clauses field ++ rest) EmptyString fields =
  fold_right (fun p rest => p ++ "," ++ rest) EmptyString
             (map render_clause (flat_map metric_clauses fields)).
Proof.
  induction fields as [|field fields IH]; [reflexivity|].
  cbn [fold_right flat_map]. rewrite IH, aggregation_clauses_text.
  now rewrite map_app, StringFacts.trailing_app.
Qed.

Lemma flat_map_clauses_nonempty (fields : list string) :
  fields <> [] -> map render_clause (flat_map metric_clauses fields) <> [].
Proof. destruct fields; [congruence | discriminate]. Qed.

(** The text accumulated by the loop of [aggregation_by], for a metric list
    that is not empty: the opening, the clauses joined by commas, and the
    comma that [slice] then removes. *)
Lemma aggregation_by_loop (fields : list string) (opening : string) :
  fields <> [] ->
  fold_left (fun query_msg field => query_msg ++ aggregation_clauses field)
            fields opening =
  (opening ++ String.concat "," (map render_clause (flat_map metric_clauses fields)))
  ++ ",".
Proof.
  intros Hne.
  rewrite StringFacts.fold_left_append, loop_text.
  rewrite StringFacts.trailing_commas by now apply flat_map_clauses_nonempty.
  now rewrite StringFacts.append_assoc.
Qed.

Lemma aggregation_by_shape (field_name : metric_param) (type : option string) :
  fields_of field_name <> [] ->
  aggregation_by field_name type =
  render (AtRoot type (flat_map metric_clauses (fields_of field_name))).
Proof.
  intros Hne. unfold aggregation_by.
  rewrite aggregation_by_loop by assumption.
  rewrite StringFacts.slice_drop_last.
  unfold render, render_aggs, type_filter.
  destruct type; string_normalize; reflexivity.
Qed.

Lemma filter_and_aggregate_by_shape
    (field_name : metric_param) (from to : string) (type host : option string) :
  fields_of field_name <> [] ->
  filter_and_aggregate_by field_name (Some from) (Some to) type host =
  render (Nested "filtered_stats"
            (optional TypeIs type ++ optional HostPrefix host ++
             [TimestampRange from to])%list
            (flat_map metric_clauses (fields_of field_name))).
Proof.
  intros Hne. unfold filter_and_aggregate_by.
  rewrite aggregation_by_shape by assumption.
  cbn [render]. change ("{" ++ ?x ++ "}") with (String "{" (x ++ "}")).
  rewrite StringFacts.slice_strip.
  unfold render_aggs, date_filter, optional.
  destruct type, host; cbn [app map String.concat render_filter];
    string_normalize; reflexivity.
Qed.

End QueryBuilder.

(** ** The response flattener *)

Section Flattener.

Context `{JsRuntime}.
Import Flatten.

Lemma bind_return {A} (r : result A) : (a <- r ;; Return a) = r.
Proof. now destruct r. Qed.

Lemma map_result_ext {A B} (f g : A -> result B) (l : list A) :
  (forall a, In a l -> f a = g a) -> map_result f l = map_result g l.
Proof.
  induction l as [|a l IH]; intros Hfg; [reflexivity|].
  cbn [map_result]. rewrite (Hfg a) by now left.
  rewrite IH; [reflexivity|]. intros; apply Hfg; now right.
Qed.

(** A step that every element starts with can be taken once, ahead of a
    list that is not empty. *)
Lemma map_result_hoist {A B C} (r : result C) (g : C -> A -> result B) (l : list A) :
  l <> [] ->
  map_result (fun a => c <- r ;; g c a) l = (c <- r ;; map_result (g c) l).
Proof.
  intros Hne. destruct r as [c|e]; [reflexivity|].
  destruct l; [congruence | reflexivity].
Qed.

(** Case analysis on the first property read that the goal is stuck on. *)
Ltac read_property :=
  match goal with
  | |- context [JsValue.get_prop ?v ?k] =>
      destruct (JsValue.get_prop v k); cbn [bind get_path]; try reflexivity
  end.

(** One turn of the loop resolves the root and summarises the metric from it. *)
Lemma answer_for_summary (mf_server workflowID : string) (from to : option string)
    (response : jsval) (metric : string) :
  answer_for mf_server workflowID from to response metric =
  (root <- aggregation_root (is_defined from && is_defined to) response ;;
   summary_at (mf_server ++ "/workflows/" ++ workflowID) root metric).
Proof.
  unfold answer_for, aggregation_root, summary_at.
  cbn [get_path].
  destruct (JsValue.get_prop response "aggregations") as [aggs|e];
    cbn [bind]; [|reflexivity].
  destruct (is_defined from && is_defined to).
  - destruct (JsValue.get_prop aggs "filtered_stats") as [root|e];
      cbn [bind]; [|reflexivity].
    repeat read_property.
  - cbn [bind]. repeat read_property.
Qed.

Lemma flatten_loop_map (mf_server workflowID : string) (from to : option string)
    (response : jsval) (metrics : list string) (answers : list jsval) :
  flatten_loop mf_server workflowID from to response metrics answers =
  (more <- map_result (answer_for mf_server workflowID from to response) metrics ;;
   Return (answers ++ more)%list).
Proof.
  revert answers; induction metrics as [|metric metrics IH]; intros answers.
  - cbn. now rewrite app_nil_r.
  - cbn [flatten_loop map_result].
    destruct (answer_for _ _ _ _ _ metric) as [answer|e]; cbn [bind]; [|reflexivity].
    rewrite IH.
    destruct (map_result _ metrics) as [more|e]; cbn [bind]; [|reflexivity].
    now rewrite <- app_assoc.
Qed.

(** The loop over a metric list that is not empty: the root resolved once,
    then one summary per metric, in order. *)
Lemma flatten_loop_summaries (mf_server workflowID : string) (from to : option string)
    (response : jsval) (metrics : list string) :
  metrics <> [] ->
  flatten_loop mf_server workflowID from to response metrics [] =
  (root <- aggregation_root (is_defined from && is_defined to) response ;;
   map_result (summary_at (mf_server ++ "/workflows/" ++ workflowID) root) metrics).
Proof.
  intros Hne. rewrite flatten_loop_map. cbn [app]. rewrite bind_return.
  rewrite <- map_result_hoist by assumption.
  apply map_result_ext. intros; apply answer_for_summary.
Qed.

End Flattener.

(** ** The statistics handlers *)

Section StatisticsHandlers.

Context `{JsRuntime}.
Import Shape Flatten.

(** A request with a metric, answered without error by the store: the
    index is refreshed, the query is sent, and the loop runs on the response. *)
Lemma handle_response_run (req : request) (index : string) (type : option string)
    (refreshed found : store_reply) (rest : list store_reply) :
  metric_is_defined (metric (req_query req)) = true ->
  error refreshed = None ->
  error found = None ->
  run (handle_response req index type) (refreshed :: found :: rest) =
  ([IndicesRefresh index;
    Search index "count"
      (if is_defined (from (req_query req)) && is_defined (to (req_query req))
       then filter_and_aggregate_by (metric (req_query req)) (from (req_query req))
              (to (req_query req)) type (host (req_query req))
       else aggregation_by (metric (req_query req)) type)],
   Some (answered
           (flatten_loop (mf_server req ++ "/mf")
              (JsString.toLowerCase (workflowID (req_params req)))
              (from (req_query req)) (to (req_query req))
              (response found) (fields_of (metric (req_query req))) []))).
Proof.
  intros Hmetric Hrefreshed Hfound.
  unfold handle_response. rewrite Hmetric. cbn [negb run].
  rewrite Hrefreshed. cbn [run]. rewrite Hfound.
  destruct (flatten_loop _ _ _ _ _ _ _); reflexivity.
Qed.

Lemma fields_defined (metric : metric_param) :
  fields_of metric <> [] -> metric_is_defined metric = true.
Proof. destruct metric; cbn; congruence. Qed.

(** The loop looks at [from] and [to] only to know whether both are there. *)
Lemma flatten_loop_range (mf_server workflowID : string)
    (from to from' to' : option string) (response : jsval)
    (metrics : list string) (answers : list jsval) :
  is_defined from && is_defined to = is_defined from' && is_defined to' ->
  flatten_loop mf_server workflowID from to response metrics answers =
  flatten_loop mf_server workflowID from' to' response metrics answers.
Proof.
  intros Hsame. rewrite !flatten_loop_map. f_equal.
  apply map_result_ext. intros metric _.
  now rewrite !answer_for_summary, Hsame.
Qed.

End StatisticsHandlers.

Section StatisticsClaims.

Context `{JsRuntime}.
Import Shape Flatten.


(** C2. A request with a metric, the store answering without error.  With
    both [from] and [to], the query sent nests the clauses of all metrics
    inside the one filter aggregation [filtered_stats], and the summaries are
    read from the [filtered_stats] node of the aggregations.  Otherwise the
    clauses sit at the root of the query, under the top-level type filter if
    a type is given, and the summaries are read from the aggregations
    themselves. *)
Theorem time_range_nests_under_filtered_stats
    (req : request) (index : string) (type : option string)
    (refreshed found : store_reply) (rest : list store_reply) :
  let q := req_query req in
  let metrics := fields_of (metric q) in
  let clauses := flat_map metric_clauses metrics in
  let href :=
    mf_server req ++ "/mf/workflows/" ++
    JsString.toLowerCase (workflowID (req_params req)) in
  metrics <> [] ->
  error refreshed = None ->
  error found = None ->
  run (handle_response req index type) (refreshed :: found :: rest) =
  match from q, to q with
  | Some f, Some t =>
      ([IndicesRefresh index;
        Search index "count"
          (render (Nested "filtered_stats"
                     (optional TypeIs type ++ optional HostPrefix (host q) ++
                      [TimestampRange f t])%list
                     clauses))],
       Some (answered
               (aggs <- JsValue.get_prop (response found) "aggregations" ;;
                root <- JsValue.get_prop aggs "filtered_stats" ;;
                map_result (summary_at href root) metrics)))
  | _, _ =>
      ([IndicesRefresh index;
        Search index "count" (render (AtRoot type clauses))],
       Some (answered
               (root <- JsValue.get_prop (response found) "aggregations" ;;
                map_result (summary_at href root) metrics)))
  end.
Proof.
  intros q metrics clauses href Hne Hrefreshed Hfound.
  rewrite handle_response_run by (try apply fields_defined; assumption).
  rewrite flatten_loop_summaries by assumption.
  replace ((mf_server req ++ "/mf") ++ "/workflows/" ++
           JsString.toLowerCase (workflowID (req_params req))) with href
    by (unfold href; now rewrite StringFacts.append_assoc).
  fold q. unfold aggregation_root.
  destruct (from q) as [f|], (to q) as [t|]; cbn [is_defined andb].
  - rewrite filter_and_aggregate_by_shape by assumption.
    do 3 f_equal.
    destruct (JsValue.get_prop (response found) "aggregations"); reflexivity.
  - rewrite aggregation_by_shape by assumption. do 3 f_equal.
    destruct (JsValue.get_prop (response found) "aggregations"); reflexivity.
  - rewrite aggregation_by_shape by assumption. do 3 f_equal.
    destruct (JsValue.get_prop (response found) "aggregations"); reflexivity.
  - rewrite aggregation_by_shape by assumption. do 3 f_equal.
    destruct (JsValue.get_prop (response found) "aggregations"); reflexivity.
Qed.

(** C3, as amended.  The summary of a metric whose [Minimum_] clause reports
    a total of zero hits is the object holding the [error] text and nothing
    else (no [metric], no [workflow], no [statistics], [min] or [max]); for
    a total that is not zero it holds the workflow link, the metric, the
    block of [m_Stats] as [statistics], the source of the first hit of
    [Minimum_m] as [min] and of [Maximum_m] as [max], and no [error]; and
    whatever the response, a summary is one of the two. *)
Theorem summary_is_error_or_statistics
    (mf_server workflowID : string) (from to : option string)
    (response : jsval) (metric : string) :
  let href := mf_server ++ "/workflows/" ++ workflowID in
  let time_range := is_defined from && is_defined to in
  (forall root total,
   aggregation_root time_range response = Return root ->
   get_path root ["Minimum_" ++ metric; "hits"; "total"] = Return (JNum total) ->
   (total == 0)%Q ->
   answer_for mf_server workflowID from to response metric =
   Return (JObj [("error", JStr "response is empty for the metric")]))
  /\
  (forall root total statistics min max,
   aggregation_root time_range response = Return root ->
   get_path root ["Minimum_" ++ metric; "hits"; "total"] = Return (JNum total) ->
   ~ (total == 0)%Q ->
   JsValue.get_prop root (metric ++ "_Stats") = Return statistics ->
   get_path root ["Minimum_" ++ metric; "hits"; "hits"; "0"; "_source"] = Return min ->
   get_path root ["Maximum_" ++ metric; "hits"; "hits"; "0"; "_source"] = Return max ->
   answer_for mf_server workflowID from to response metric =
   Return (JObj [("workflow", JObj [("href", JStr href)]);
                 ("metric", JStr metric);
                 ("statistics", statistics);
                 ("min", min);
                 ("max", max)]))
  /\
  (forall summary,
   answer_for mf_server workflowID from to response metric = Return summary ->
   summary = JObj [("error", JStr "response is empty for the metric")] \/
   exists statistics min max,
     summary =
     JObj [("workflow", JObj [("href", JStr href)]);
           ("metric", JStr metric);
           ("statistics", statistics);
           ("min", min);
           ("max", max)]).
Proof.
  intros href time_range.
  rewrite answer_for_summary. fold href time_range. unfold summary_at.
  repeat split.
  - intros root total -> Htotal Hzero. cbn [bind].
    rewrite Htotal. cbn [bind loose_eq_zero].
    apply Qeq_bool_iff in Hzero. now rewrite Hzero.
  - intros root total statistics min max -> Htotal Hnonzero Hstatistics Hmin Hmax.
    cbn [bind]. rewrite Htotal. cbn [bind loose_eq_zero].
    destruct (Qeq_bool total 0) eqn:Hzero;
      [apply Qeq_bool_iff in Hzero; contradiction|].
    replace (get_path root [metric ++ "_Stats"]) with (Return statistics)
      by (cbn [get_path]; now rewrite Hstatistics).
    cbn [bind]. now rewrite Hmin, Hmax.
  - intros summary.
    destruct (aggregation_root time_range response) as [root|];
      cbn [bind]; [|discriminate].
    destruct (get_path root ["Minimum_" ++ metric; "hits"; "total"]) as [total|];
      cbn [bind]; [|discriminate].
    destruct (loose_eq_zero total).
    + intros [= <-]. now left.
    + destruct (get_path root [metric ++ "_Stats"]) as [statistics|];
        cbn [bind]; [|discriminate].
      destruct (get_path root ["Minimum_" ++ metric; "hits"; "hits"; "0"; "_source"])
        as [min|]; cbn [bind]; [|discriminate].
      destruct (get_path root ["Maximum_" ++ metric; "hits"; "hits"; "0"; "_source"])
        as [max|]; cbn [bind]; [|discriminate].
      intros [= <-]. right. now exists statistics, min, max.
Qed.

(** C5. When each turn of the loop yields a summary, the answers are the
    summaries of the metrics in the order of the metric list, one per
    entry: a metric that is listed twice is answered twice. *)
Theorem summaries_follow_metric_order
    (mf_server workflowID : string) (from to : option string)
    (response : jsval) (metrics : list string) (summary : string -> jsval) :
  (forall m, In m metrics ->
     answer_for mf_server workflowID from to response m = Return (summary m)) ->
  flatten_loop mf_server workflowID from to response metrics [] =
  Return (map summary metrics).
Proof.
  intros Hsummary. rewrite flatten_loop_map. cbn [app].
  rewrite bind_return.
  induction metrics as [|m metrics IH]; [reflexivity|].
  cbn [map_result map]. rewrite Hsummary by now left. cbn [bind].
  rewrite IH; [reflexivity|]. intros; apply Hsummary; now right.
Qed.

(** C4: what the code does with [host] when [from] or [to] is missing.  The
    handler does not look at it: with any host prefix it is the handler of
    the same request without [host]. *)
Theorem host_ignored_without_time_range
    (req : request) (index : string) (type : option string) (prefix : string) :
  let q := req_query req in
  from q = None \/ to q = None ->
  handle_response (with_query req (with_host q (Some prefix))) index type =
  handle_response (with_query req (with_host q None)) index type.
Proof.
  intros q Hrange. subst q.
  destruct (req_query req) as [h m f t]. cbn in Hrange.
  destruct Hrange as [-> | ->]; [|destruct f]; reflexivity.
Qed.

(** C6. With exactly one of [from] and [to], the handler makes the calls
    and gives the answer of the same request with neither, whatever the
    store replies. *)
Theorem lone_bound_is_no_time_range
    (req : request) (index : string) (type : option string)
    (replies : list store_reply) :
  let q := req_query req in
  xorb (is_defined (from q)) (is_defined (to q)) = true ->
  run (handle_response req index type) replies =
  run (handle_response (with_query req (with_range q None None)) index type) replies.
Proof.
  intros q Hone. unfold handle_response. cbn.
  fold q.
  assert (Hnot : is_defined (from q) && is_defined (to q) = false)
    by (destruct (from q), (to q); cbn in *; congruence).
  rewrite Hnot.
  destruct (metric_is_defined (metric q)); cbn [negb]; [|reflexivity].
  destruct replies as [|refreshed [|found rest]]; cbn [run]; try reflexivity;
    destruct (error refreshed); cbn [run]; try reflexivity.
  destruct (error found); cbn [run]; try reflexivity.
  rewrite (flatten_loop_range _ _ (from q) (to q) None None) by exact Hnot.
  reflexivity.
Qed.


(** C8. Without the [metric] parameter each statistics route answers at
    once, under the status 200 it started with, the object holding the error
    message, and calls the store for nothing. *)
Theorem missing_metric_is_answered_at_once
    (req : request) (replies : list store_reply) :
  metric (req_query req) = MetricUndefined ->
  let answer :=
    Json 200 (JObj [("error", JObj [("message", JStr "parameter metric is missing")])]) in
  run (get_workflow_statistics req) replies = ([], Some answer) /\
  run (get_task_statistics req) replies = ([], Some answer) /\
  run (get_experiment_statistics req) replies = ([], Some answer).
Proof.
  intros Hmetric answer.
  unfold get_workflow_statistics, get_task_statistics, get_experiment_statistics,
    handle_response.
  rewrite Hmetric. cbn [metric_is_defined negb run]. auto.
Qed.

End StatisticsClaims.

(** ** Lower-casing of identifiers *)

Module LetterCaseFacts.

Import JsString LetterCase.






End LetterCaseFacts.

(** ** The handlers of configs and workflows, and the identifiers of all *)

Section StoreHandlers.

Context `{JsRuntime}.

(** The error handed to a callback is [undefined] or an error object, and
    neither is strictly equal to a string. *)
Lemma error_is_no_string (error : option store_error) (text : string) :
  JsValue.strict_neq_string (error_value error) text = true.
Proof. destruct error as [[props]|]; reflexivity. Qed.

(** C9. Whatever the store replies to the index call, error or not, both
    PUT handlers answer under status 200 the object holding the link of the
    resource: the branch that sets status 500 is never taken. *)
Theorem put_always_answers_href
    (req : request) (reply : store_reply) (rest : list store_reply) :
  run (Configs.put_platform req) (reply :: rest) =
  ([Index "mf" "configurations"
      (JsString.toLowerCase (platformID (req_params req))) (req_body req)],
   Some (Json 200
           (JObj [("href",
                   JStr (mf_server req ++ "/mf/configs/" ++
                         JsString.toLowerCase (platformID (req_params req))))])))
  /\
  run (Workflows.put_workflow req) (reply :: rest) =
  ([Index "mf" "workflows"
      (JsString.toLowerCase (id (req_params req))) (req_body req)],
   Some (Json 200
           (JObj [("href",
                   JStr (mf_server req ++ "/mf/workflows/" ++
                         JsString.toLowerCase (id (req_params req))))]))).
Proof.
  unfold Configs.put_platform, Workflows.put_workflow. cbn [run].
  rewrite !error_is_no_string. split; reflexivity.
Qed.


End StoreHandlers.

(** ** The theorems at concrete requests *)

Section Instances.

Import Shape Flatten Examples.

#[local] Existing Instance Examples.runtime.



Lemma time_range_example :
  run (get_workflow_statistics
         (statistics_request
            {| host := Some "node01"; metric := MetricArray ["A"; "B"];
               from := Some "2016-05-10T17:35:57.610";
               to := Some "2016-05-10T17:36:57.610" |}))
      [ok JNull; ok response_filtered] =
  ([IndicesRefresh "ms2_*";
    Search "ms2_*" "count"
      (render (Nested "filtered_stats"
                 [HostPrefix "node01";
                  TimestampRange "2016-05-10T17:35:57.610" "2016-05-10T17:36:57.610"]
                 (metric_clauses "A" ++ metric_clauses "B")%list))],
   Some (Json 200 (JArr [summary_A; summary_B]))).
Proof.
  exact (time_range_nests_under_filtered_stats
           (statistics_request
              {| host := Some "node01"; metric := MetricArray ["A"; "B"];
                 from := Some "2016-05-10T17:35:57.610";
                 to := Some "2016-05-10T17:36:57.610" |})
           "ms2_*" None (ok JNull) (ok response_filtered) []
           ltac:(discriminate) eq_refl eq_refl).
Defined.


Lemma summary_is_error_or_statistics_example :
  answer_for "http://mf:3030/v1/mf" "ms2" None None response_at_root "A" =
  Return summary_A.
Proof.
  refine (proj1 (proj2 (summary_is_error_or_statistics
                          "http://mf:3030/v1/mf" "ms2" None None
                          response_at_root "A"))
                aggregations (inject_Z 3) _ _ _
                eq_refl eq_refl _ eq_refl eq_refl eq_refl).
  intros Hzero. discriminate Hzero.
Defined.

(** The summary of a metric without hits holds the error text and no
    [metric] (and no [workflow], [statistics], [min] or [max]). *)
Lemma empty_summary_has_no_metric :
  answer_for "http://mf:3030/v1/mf" "ms2" None None response_at_root "B" =
  Return (JObj [("error", JStr "response is empty for the metric")])
  /\
  JsValue.get_prop (JObj [("error", JStr "response is empty for the metric")]) "metric" =
  Return JUndefined.
Proof. split; reflexivity. Qed.

Lemma summaries_follow_metric_order_example :
  flatten_loop "http://mf:3030/v1/mf" "ms2" None None response_at_root
    ["A"; "B"; "A"] [] =
  Return [summary_A; summary_B; summary_A].
Proof.
  refine (summaries_follow_metric_order
            "http://mf:3030/v1/mf" "ms2" None None response_at_root
            ["A"; "B"; "A"]
            (fun m => if (m =? "A")%string then summary_A else summary_B) _).
  intros m [<- | [<- | [<- | []]]]; reflexivity.
Defined.

Lemma host_ignored_without_time_range_example :
  handle_response
    (statistics_request
       {| host := Some "node01"; metric := MetricArray ["A"; "B"];
          from := None; to := None |}) "ms2_*" None =
  handle_response (statistics_request (metrics_only (MetricArray ["A"; "B"]))) "ms2_*" None.
Proof.
  exact (host_ignored_without_time_range
           (statistics_request (metrics_only (MetricArray ["A"; "B"])))
           "ms2_*" None "node01" (or_introl eq_refl)).
Defined.

(** The query sent for metrics [A] and [B] with host [node01] and no time
    range: no [prefix] filter in it. *)
Lemma host_prefix_missing_from_query :
  run (get_workflow_statistics
         (statistics_request
            {| host := Some "node01"; metric := MetricArray ["A"; "B"];
               from := None; to := None |}))
      [ok JNull] =
  ([IndicesRefresh "ms2_*";
    Search "ms2_*" "count"
      (render (AtRoot None (metric_clauses "A" ++ metric_clauses "B")%list))],
   None).
Proof. reflexivity. Qed.

Lemma lone_bound_is_no_time_range_example :
  run (get_workflow_statistics
         (statistics_request
            {| host := None; metric := MetricString "A";
               from := Some "2016-05-10T17:35:57.610"; to := None |}))
      [ok JNull; ok response_at_root] =
  run (get_workflow_statistics (statistics_request (metrics_only (MetricString "A"))))
      [ok JNull; ok response_at_root].
Proof.
  exact (lone_bound_is_no_time_range
           (statistics_request
              {| host := None; metric := MetricString "A";
                 from := Some "2016-05-10T17:35:57.610"; to := None |})
           "ms2_*" None [ok JNull; ok response_at_root] eq_refl).
Defined.



Lemma missing_metric_is_answered_at_once_example :
  let answer :=
    Json 200 (JObj [("error", JObj [("message", JStr "parameter metric is missing")])]) in
  run (get_workflow_statistics (statistics_request (metrics_only MetricUndefined)))
      [ok JNull; ok response_at_root] = ([], Some answer) /\
  run (get_task_statistics (statistics_request (metrics_only MetricUndefined)))
      [ok JNull; ok response_at_root] = ([], Some answer) /\
  run (get_experiment_statistics (statistics_request (metrics_only MetricUndefined)))
      [ok JNull; ok response_at_root] = ([], Some answer).
Proof.
  exact (missing_metric_is_answered_at_once
           (statistics_request (metrics_only MetricUndefined))
           [ok JNull; ok response_at_root] eq_refl).
Defined.

(** A failed index call is answered like one that went well. *)
Lemma put_after_store_error :
  run (Configs.put_platform
         (with_params (statistics_request (metrics_only MetricUndefined))
            {| workflowID := EmptyString; taskID := EmptyString;
               experimentID := EmptyString; platformID := "Node01.Excess-Cluster";
               id := EmptyString |}))
      [failed "No Living connections"] =
  ([Index "mf" "configurations" "node01.excess-cluster" JUndefined],
   Some (Json 200
           (JObj [("href",
                   JStr "http://mf:3030/v1/mf/configs/node01.excess-cluster")]))).
Proof. reflexivity. Qed.



End Instances.

(* ================================================================== *)
(** * Further properties of the statistics routes *)

Section StatisticsEdges.

Context `{JsRuntime}.
Import Shape Flatten.

Lemma flatten_loop_throws (mf_server workflowID : string) (from to : option string)
    (response : jsval) (metrics : list string) (m : string) (e : js_error) :
  In m metrics ->
  answer_for mf_server workflowID from to response m = Throw e ->
  forall answers,
  flatten_loop mf_server workflowID from to response metrics answers = Throw e.
Proof.
  intros Hin Hthrow. destruct e.
  induction metrics as [|m' metrics IH]; [contradiction|].
  intros answers. cbn [flatten_loop].
  destruct (answer_for mf_server workflowID from to response m') as [answer|[]] eqn:Hm';
    cbn [bind]; [|reflexivity].
  destruct Hin as [-> | Hin]; [congruence|]. now apply IH.
Qed.

(** X1. One metric whose turn throws loses the answers of all: after the
    refresh and the search the callback ends on the exception and nothing is
    sent, wherever the metric stands in the list. *)
Theorem one_failing_metric_loses_all
    (req : request) (index : string) (type : option string)
    (refreshed found : store_reply) (rest : list store_reply)
    (m : string) (e : js_error) :
  let q := req_query req in
  error refreshed = None ->
  error found = None ->
  In m (fields_of (metric q)) ->
  answer_for (mf_server req ++ "/mf")
    (JsString.toLowerCase (workflowID (req_params req)))
    (from q) (to q) (response found) m = Throw e ->
  snd (run (handle_response req index type) (refreshed :: found :: rest)) =
  Some (Uncaught e).
Proof.
  intros q Hrefreshed Hfound Hin Hthrow.
  rewrite handle_response_run; try assumption.
  - cbn [snd]. fold q.
    now rewrite (flatten_loop_throws _ _ _ _ _ _ m e Hin Hthrow).
  - fold q. destruct (metric q); [contradiction | reflexivity | reflexivity].
Qed.

(** X2. The turn of a metric throws when the node the summaries are read
    from is [undefined] (a time range was asked and the aggregations have no
    [filtered_stats]) or has no [Minimum_] clause of the metric. *)
Theorem missing_clause_throws
    (mf_server workflowID : string) (from to : option string)
    (response root : jsval) (m : string) :
  aggregation_root (is_defined from && is_defined to) response = Return root ->
  root = JUndefined \/
  JsValue.get_prop root ("Minimum_" ++ m) = Return JUndefined ->
  answer_for mf_server workflowID from to response m = Throw TypeError.
Proof.
  intros Hroot Hmissing.
  rewrite answer_for_summary, Hroot. cbn [bind]. unfold summary_at.
  cbn [get_path].
  destruct Hmissing as [-> | ->]; reflexivity.
Qed.

(** X3. A total that is a number other than zero with no first hit under
    [Minimum_m] makes the turn throw: [hits.hits[0]] is [undefined] and its
    [_source] is read. *)
Theorem no_first_hit_throws
    (mf_server workflowID : string) (from to : option string)
    (response root : jsval) (m : string) (total : Q) (statistics : jsval) :
  aggregation_root (is_defined from && is_defined to) response = Return root ->
  get_path root ["Minimum_" ++ m; "hits"; "total"] = Return (JNum total) ->
  ~ (total == 0)%Q ->
  get_path root ["Minimum_" ++ m; "hits"; "hits"; "0"] = Return JUndefined ->
  answer_for mf_server workflowID from to response m = Throw TypeError.
Proof.
  intros Hroot Htotal Hnonzero Hfirst.
  rewrite answer_for_summary, Hroot. cbn [bind]. unfold summary_at.
  rewrite Htotal. cbn [bind loose_eq_zero].
  destruct (Qeq_bool total 0) eqn:Hzero;
    [apply Qeq_bool_iff in Hzero; contradiction|].
  cbn [get_path] in *.
  destruct (JsValue.get_prop root (m ++ "_Stats")) as [stats|[]];
    cbn [bind]; [|reflexivity].
  destruct (JsValue.get_prop root ("Minimum_" ++ m)) as [minimum|[]];
    cbn [bind] in *; [|reflexivity].
  destruct (JsValue.get_prop minimum "hits") as [hits|[]];
    cbn [bind] in *; [|reflexivity].
  destruct (JsValue.get_prop hits "hits") as [list|[]];
    cbn [bind] in *; [|reflexivity].
  destruct (JsValue.get_prop list "0") as [first|[]];
    cbn [bind] in *; [|reflexivity].
  injection Hfirst as ->. reflexivity.
Qed.

(** X4. An error of the store is answered under status 200 with the error
    object as body: after a failed refresh no search is made, and after a
    failed search nothing of the response is read. *)
Theorem store_errors_are_answered_200
    (req : request) (index : string) (type : option string)
    (refreshed found : store_reply) (rest : list store_reply) (e : store_error) :
  metric_is_defined (metric (req_query req)) = true ->
  (error refreshed = Some e ->
   run (handle_response req index type) (refreshed :: rest) =
   ([IndicesRefresh index], Some (Json 200 (error_json e))))
  /\
  (error refreshed = None -> error found = Some e ->
   exists body,
   run (handle_response req index type) (refreshed :: found :: rest) =
   ([IndicesRefresh index; Search index "count" body],
    Some (Json 200 (error_json e)))).
Proof.
  intros Hmetric. unfold handle_response. rewrite Hmetric. cbn [negb run].
  split.
  - intros ->. reflexivity.
  - intros Hrefreshed Hfound. rewrite Hrefreshed. cbn [run].
    rewrite Hfound. eexists. reflexivity.
Qed.

End StatisticsEdges.

(** ** Values are spliced into the query text as they are *)

Module SpliceFacts.

Lemma append_inv_head (p a b : string) : p ++ a = p ++ b -> a = b.
Proof.
  induction p as [|c p IH]; cbn [append]; [trivial|].
  intros [= Heq]. now apply IH.
Qed.

Lemma append_inv_tail (a b s : string) : a ++ s = b ++ s -> a = b.
Proof.
  revert b; induction a as [|c a IH]; intros [|d b] Heq; cbn [append] in Heq.
  - reflexivity.
  - apply (f_equal String.length) in Heq. cbn [String.length] in Heq.
    rewrite StringFacts.length_append in Heq. lia.
  - apply (f_equal String.length) in Heq. cbn [String.length] in Heq.
    rewrite StringFacts.length_append in Heq. lia.
  - injection Heq as -> Heq. f_equal. now apply IH.
Qed.

Lemma append_inv_middle (p s a b : string) : p ++ a ++ s = p ++ b ++ s -> a = b.
Proof. intros Heq. apply append_inv_head in Heq. now apply append_inv_tail in Heq. Qed.

Lemma append_longer (a b : string) : b <> EmptyString -> a ++ b <> a.
Proof.
  intros Hb Heq. apply (f_equal String.length) in Heq.
  rewrite StringFacts.length_append in Heq.
  destruct b; [congruence | cbn [String.length] in Heq; lia].
Qed.

End SpliceFacts.

Section Splicing.

Import Shape.

(** X5. Nothing is escaped: a [from] that ends like the text between the
    two bounds builds the query of another time range.  For all [x], [y]
    and [z] the ranges from [x","to": "y] to [z] and from [x] to
    [y","to": "z] give the same text, though their bounds differ. *)
Theorem time_ranges_run_together
    (field_name : metric_param) (type host : option string) (x y z : string) :
  let between := "','to': '"%js in
  filter_and_aggregate_by field_name (Some (x ++ between ++ y)) (Some z) type host =
  filter_and_aggregate_by field_name (Some x) (Some (y ++ between ++ z)) type host
  /\ x ++ between ++ y <> x.
Proof.
  intros between. split.
  - unfold filter_and_aggregate_by, date_filter, between.
    do 7 f_equal. string_normalize. reflexivity.
  - apply SpliceFacts.append_longer. discriminate.
Qed.

(** X6. The type is written into the query as it was given: for a metric
    list that is not empty, two types build the same text only if they are
    the same, at the root as well as under a time range.  Unlike the other
    path segments, identifiers of experiments that differ in case are told
    apart. *)
Theorem type_is_spliced_as_given
    (field_name : metric_param) (from to : string) (host : option string)
    (type type' : string) :
  fields_of field_name <> [] ->
  (aggregation_by field_name (Some type) = aggregation_by field_name (Some type') ->
   type = type')
  /\
  (filter_and_aggregate_by field_name (Some from) (Some to) (Some type) host =
   filter_and_aggregate_by field_name (Some from) (Some to) (Some type') host ->
   type = type').
Proof.
  intros Hne. split.
  - rewrite !aggregation_by_shape by assumption.
    set (aggs := flat_map metric_clauses (fields_of field_name)).
    assert (Hsplit : forall t,
      render (AtRoot (Some t) aggs) =
      "{'query': {'filtered': {'filter': {'type': { 'value': '"%js ++ t ++
      ("' }}}},"%js ++ render_aggs aggs ++ "}"))
      by (intros t; cbn [render]; string_normalize; reflexivity).
    rewrite !Hsplit. apply SpliceFacts.append_inv_middle.
  - rewrite !filter_and_aggregate_by_shape by assumption.
    set (aggs := flat_map metric_clauses (fields_of field_name)).
    set (others := (optional HostPrefix host ++ [TimestampRange from to])%list).
    assert (Hsplit : forall t,
      render (Nested "filtered_stats" (optional TypeIs (Some t) ++ others)%list aggs) =
      "{'aggs': {'filtered_stats': {'filter': {'and': [{ 'type': { 'value': '"%js ++ t ++
      ("' }}"%js ++
       (match others with [] => EmptyString | _ => "," end ++
        String.concat "," (map render_filter others)) ++
       "]},"%js ++ render_aggs aggs ++ "}}}")).
    { intros t. cbn [render optional app map].
      destruct others as [|f others'] eqn:Hothers.
      - cbn [String.concat map render_filter]. string_normalize. reflexivity.
      - change (String.concat "," (render_filter (TypeIs t) :: map render_filter (f :: others')))
          with (render_filter (TypeIs t) ++ "," ++
                String.concat "," (map render_filter (f :: others'))).
        cbn [render_filter]. string_normalize. reflexivity. }
    rewrite !Hsplit. apply SpliceFacts.append_inv_middle.
Qed.

End Splicing.

(** ** Fetching by identifier *)

Section FetchById.

(** X7. Both routes that fetch a document by identifier answer under
    status 200 whatever the store replies, found or not, and do not look at
    the error handed to the callback: with a reply whose response is an
    object the answer is its [_source] when [found] holds, else the error
    text naming the lowered identifier; with a reply that has no response
    the callback throws and nothing is sent. *)
Theorem fetch_by_id_answers_200
    (req : request) (reply : store_reply) (rest : list store_reply) :
  let platformID := JsString.toLowerCase (platformID (req_params req)) in
  let id := JsString.toLowerCase (id (req_params req)) in
  (forall props,
   response reply = JObj props ->
   run (Configs.get_platform req) (reply :: rest) =
   ([Get "mf" "configurations" platformID],
    Some (Json 200
            (if JsValue.truthy (JsValue.own "found" props)
             then JsValue.own "_source" props
             else JObj [("error",
                         JStr ("Configuration for the platform'" ++ platformID ++
                               "' is not found."))])))
   /\
   run (Workflows.get_workflow req) (reply :: rest) =
   ([Get "mf" "workflows" id],
    Some (Json 200
            (if JsValue.truthy (JsValue.own "found" props)
             then JsValue.own "_source" props
             else JObj [("error",
                         JStr ("Workflow with the ID '" ++ id ++ "' not found."))]))))
  /\
  (response reply = JUndefined ->
   run (Configs.get_platform req) (reply :: rest) =
   ([Get "mf" "configurations" platformID], Some (Uncaught TypeError))
   /\
   run (Workflows.get_workflow req) (reply :: rest) =
   ([Get "mf" "workflows" id], Some (Uncaught TypeError))).
Proof.
  intros platformID id.
  unfold Configs.get_platform, Workflows.get_workflow. cbn [run].
  split.
  - intros props ->. cbn [JsValue.get_prop].
    destruct (JsValue.truthy (JsValue.own "found" props)); split; reflexivity.
  - intros ->. split; reflexivity.
Qed.

End FetchById.

(* ================================================================== *)
(** * Properties of the list routes *)

Module ListingFacts.

Import Listing Documents.

Lemma copy_of_document (v : jsval) : has_no_undefined v = true -> copy v = v.
Proof.
  induction v as [| | | | |items IH|props IH] using jsval_induction;
    intros Hclean; try reflexivity.
  - cbn [copy]. f_equal. cbn [has_no_undefined] in Hclean.
    induction IH as [|x items Hx _ IHitems]; [reflexivity|].
    cbn [forallb map] in *. apply andb_prop in Hclean as [Hclean_x Hclean_items].
    rewrite IHitems by assumption. rewrite Hx by assumption.
    destruct x; [discriminate|reflexivity..].
  - cbn [copy]. f_equal. cbn [has_no_undefined] in Hclean.
    induction IH as [|[k x] props Hx _ IHprops]; [reflexivity|].
    cbn [snd] in *. apply andb_prop in Hclean as [Hclean_x Hclean_props].
    rewrite IHprops by assumption. rewrite Hx by assumption.
    destruct x; [discriminate|reflexivity..].
Qed.

Lemma json_copy_clean (v : jsval) : has_no_undefined v = true -> json_copy v = Got v.
Proof.
  intros Hclean. unfold json_copy. rewrite copy_of_document by assumption.
  destruct v; [discriminate|reflexivity..].
Qed.

(** X8. The copy that [get_details] makes of a document through
    [JSON.stringify] and [JSON.parse] is the document itself, whenever the
    document holds no [undefined]; of [undefined] there is no copy, a
    syntax error is thrown. *)
Theorem json_copy_of_document (v : jsval) :
  (has_no_undefined v = true -> json_copy v = Got v) /\
  (v = JUndefined -> json_copy v = Raised ThrownSyntaxError).
Proof.
  split; [apply json_copy_clean | now intros ->].
Qed.

(** *** Properties of an object: [put], [insert_index], [define] *)

Lemma own_put (k k' : string) (v : jsval) (props : list (string * jsval)) :
  JsValue.own k' (JsValue.put k v props) =
  if (k =? k')%string then v else JsValue.own k' props.
Proof.
  induction props as [|[k0 v0] props IH]; cbn [JsValue.put JsValue.own].
  - destruct (k =? k')%string; reflexivity.
  - destruct (k0 =? k)%string eqn:Hk0; cbn [JsValue.own].
    + apply String.eqb_eq in Hk0 as ->.
      destruct (k =? k')%string; reflexivity.
    + rewrite IH. destruct (k0 =? k')%string eqn:Hk0'; [|reflexivity].
      apply String.eqb_eq in Hk0' as ->. now rewrite String.eqb_sym, Hk0.
Qed.

Lemma own_without (k : string) (props : list (string * jsval)) :
  has k props = false -> JsValue.own k props = JUndefined.
Proof.
  induction props as [|[k0 v0] props IH]; cbn [has JsValue.own]; [reflexivity|].
  intros Hhas. apply orb_false_elim in Hhas as [-> Hhas]. now apply IH.
Qed.




End ListingFacts.

(** ** [get_details] of configs.js *)

Section ConfigsDetails.

Context `{Listing.JsNames}.
Import Listing Documents ListingFacts.




(** X11. One hit without [_source] among the results, and the listing
    throws: no document is listed. *)
Theorem configs_details_need_source (hits : list jsval) (hit : jsval) :
  In hit hits ->
  JsValue.get_prop hit "_source" = Return JUndefined ->
  exists e, ConfigsList.get_details (JArr hits) = Raised e.
Proof.
  intros Hin Hsource. unfold ConfigsList.get_details. cbn [own_values and_then].
  assert (Hloop : forall response, exists e, ConfigsList.for_each hits response = Raised e).
  { induction hits as [|hit' hits IH]; [contradiction|]. intros response.
    cbn [ConfigsList.for_each].
    destruct Hin as [-> | Hin].
    - unfold ConfigsList.add_details, read. rewrite Hsource.
      cbn [and_then json_copy]. now exists ThrownSyntaxError.
    - destruct (ConfigsList.add_details response hit') as [response'|e]; cbn [and_then].
      + now apply IH.
      + now exists e. }
  destruct (Hloop []) as (e & ->). now exists e.
Qed.

End ConfigsDetails.

(** ** [get_details] of workflows.js *)

Section WorkflowsDetails.

Context `{Listing.JsNames}.
Import Listing Documents ListingFacts.

Lemma push_names_all (tasks names : list jsval) :
  Forall2 (fun task name => JsValue.get_prop task "name" = Return name) tasks names ->
  forall pushed,
  WorkflowsList.push_names tasks pushed = Got (pushed ++ names)%list.
Proof.
  induction 1 as [|task name tasks names Hname _ IH]; intros pushed.
  - cbn. now rewrite app_nil_r.
  - cbn [WorkflowsList.push_names]. unfold read. rewrite Hname. cbn [and_then].
    rewrite IH. now rewrite <- app_assoc.
Qed.

(** X10. In the listing of workflows a document that has a list of tasks
    is entered with the names of its tasks in place of the tasks, in order,
    and all its other members as they are; a document without [tasks] is
    entered as it is. *)
Theorem tasks_are_listed_by_name
    (response : list (string * jsval)) (hit : jsval) (identifier : string)
    (members : list (string * jsval)) :
  JsValue.get_prop hit "_id" = Return (JStr identifier) ->
  JsValue.get_prop hit "_source" = Return (JObj members) ->
  has_no_undefined (JObj members) = true ->
  (forall tasks names,
   JsValue.own "tasks" members = JArr tasks ->
   Forall2 (fun task name => JsValue.get_prop task "name" = Return name) tasks names ->
   exists listed,
     WorkflowsList.add_details response hit =
     Got (define identifier (JObj listed) response) /\
     JsValue.own "tasks" listed = JArr names /\
     forall k, k <> "tasks" -> JsValue.own k listed = JsValue.own k members)
  /\
  (JsValue.own "tasks" members = JUndefined ->
   WorkflowsList.add_details response hit =
   Got (define identifier (JObj members) response)).
Proof.
  intros Hid Hsource Hclean.
  unfold WorkflowsList.add_details, read.
  rewrite Hsource. cbn [and_then]. rewrite json_copy_clean by assumption.
  cbn [and_then JsValue.get_prop]. split.
  - intros tasks names -> Hnames. cbn [and_then enumerated_values].
    rewrite (push_names_all tasks names Hnames []). cbn [app and_then].
    rewrite Hid. cbn [and_then property_key].
    eexists. split; [reflexivity|]. split.
    + now rewrite own_put.
    + intros k Hk. rewrite !own_put.
      destruct ("tasks" =? k)%string eqn:Heq; [|reflexivity].
      apply String.eqb_eq in Heq. congruence.
  - intros ->. cbn [and_then]. rewrite Hid. reflexivity.
Qed.

End WorkflowsDetails.

(** ** The list routes *)

Section ListRoutes.

Context `{Listing.JsNames}.
Import Listing Documents.

(** X12. When the count of the store is the number zero, both list routes
    answer under status 404 with their error text and make no second
    search. *)
Theorem nothing_to_list_is_404
    (counted : store_reply) (rest : list store_reply) (total : Q) :
  counts counted (JNum total) ->
  (total == 0)%Q ->
  play ConfigsList.get_all (counted :: rest) =
  ([SearchCount "mf" "configurations"],
   Some (Sent 404 (JObj [("error", JStr "No configurations found.")])))
  /\
  play WorkflowsList.get_all (counted :: rest) =
  ([SearchCount "mf" "workflows"],
   Some (Sent 404 (JObj [("error", JStr "No workflows found.")]))).
Proof.
  intros (Herror & hits & Hhits & Htotal) Hzero.
  apply Qeq_bool_iff in Hzero.
  unfold ConfigsList.get_all, WorkflowsList.get_all, read. cbn [play].
  rewrite Herror, Hhits. cbn [and_then JsValue.get_prop].
  rewrite Htotal. cbn [strict_eq_zero]. rewrite Hzero. split; reflexivity.
Qed.

(** X13. An error of the store, at the count or at the search that
    follows, is handed to [next] under status 500, and no body is sent. *)
Theorem list_errors_are_forwarded_500
    (counted found : store_reply) (rest : list store_reply)
    (total : Q) (e : store_error) :
  (error counted = Some e ->
   play ConfigsList.get_all (counted :: rest) =
   ([SearchCount "mf" "configurations"], Some (Forwarded 500 e)) /\
   play WorkflowsList.get_all (counted :: rest) =
   ([SearchCount "mf" "workflows"], Some (Forwarded 500 e)))
  /\
  (counts counted (JNum total) -> ~ (total == 0)%Q -> error found = Some e ->
   play ConfigsList.get_all (counted :: found :: rest) =
   ([SearchCount "mf" "configurations"; SearchSize "mf" "configurations" (JNum total)],
    Some (Forwarded 500 e)) /\
   play WorkflowsList.get_all (counted :: found :: rest) =
   ([SearchCount "mf" "workflows"; SearchSize "mf" "workflows" (JNum total)],
    Some (Forwarded 500 e))).
Proof.
  unfold ConfigsList.get_all, WorkflowsList.get_all, read. cbn [play]. split.
  - intros ->. split; reflexivity.
  - intros (Herror & hits & Hhits & Htotal) Hnonzero Hfound.
    rewrite Herror, Hhits. cbn [and_then JsValue.get_prop].
    rewrite Htotal. cbn [strict_eq_zero].
    destruct (Qeq_bool total 0) eqn:Hzero;
      [apply Qeq_bool_iff in Hzero; contradiction|].
    cbn [play]. rewrite Hfound. split; reflexivity.
Qed.

(** X14. With a count that is a number other than zero, the second search
    asks for as many documents as were counted, and the answer under status
    200 is the listing made of its hits.  When the response to the count
    has no [hits], the second search asks for 100 configurations, and for
    1000 workflows. *)
Theorem list_asks_for_the_count
    (counted found : store_reply) (rest : list store_reply) :
  error found = None ->
  (forall total hits results,
   counts counted (JNum total) -> ~ (total == 0)%Q ->
   JsValue.get_prop (response found) "hits" = Return (JObj hits) ->
   JsValue.own "hits" hits = results ->
   (forall listing, ConfigsList.get_details results = Got listing ->
    play ConfigsList.get_all (counted :: found :: rest) =
    ([SearchCount "mf" "configurations"; SearchSize "mf" "configurations" (JNum total)],
     Some (Sent 200 listing)))
   /\
   (forall listing, WorkflowsList.get_details results = Got listing ->
    play WorkflowsList.get_all (counted :: found :: rest) =
    ([SearchCount "mf" "workflows"; SearchSize "mf" "workflows" (JNum total)],
     Some (Sent 200 listing))))
  /\
  (error counted = None ->
   JsValue.get_prop (response counted) "hits" = Return JUndefined ->
   fst (play ConfigsList.get_all (counted :: found :: rest)) =
   [SearchCount "mf" "configurations";
    SearchSize "mf" "configurations" (JNum (inject_Z 100))]
   /\
   fst (play WorkflowsList.get_all (counted :: found :: rest)) =
   [SearchCount "mf" "workflows";
    SearchSize "mf" "workflows" (JNum (inject_Z 1000))]).
Proof.
  intros Hfound.
  unfold ConfigsList.get_all, WorkflowsList.get_all, read. cbn [play]. split.
  - intros total hits results (Herror & counted_hits & Hhits & Htotal) Hnonzero
      Hfound_hits Hresults.
    rewrite Herror, Hhits. cbn [and_then JsValue.get_prop].
    rewrite Htotal. cbn [strict_eq_zero].
    destruct (Qeq_bool total 0) eqn:Hzero;
      [apply Qeq_bool_iff in Hzero; contradiction|].
    cbn [play]. rewrite Hfound, Hfound_hits. cbn [and_then JsValue.get_prop].
    rewrite Hresults. split; intros listing ->; reflexivity.
  - intros Herror Hhits. rewrite Herror, Hhits. cbn [and_then].
    change (strict_eq_zero (JNum (inject_Z 100))) with false.
    change (strict_eq_zero (JNum (inject_Z 1000))) with false.
    cbn [play]. rewrite Hfound.
    split.
    + destruct (_ <~ _ ;; _); reflexivity.
    + destruct (_ <~ _ ;; _); reflexivity.
Qed.

End ListRoutes.

(* ================================================================== *)
(** * The further properties at concrete inputs *)

Section FurtherInstances.

Import Shape Flatten Examples Listing Documents ListingExamples.

#[local] Existing Instance Examples.runtime.
#[local] Existing Instance ListingExamples.names.

Lemma one_failing_metric_loses_all_example :
  snd (run (get_workflow_statistics
              (statistics_request (metrics_only (MetricArray ["A"; "C"]))))
           [ok JNull; ok response_at_root]) =
  Some (Uncaught TypeError).
Proof.
  exact (one_failing_metric_loses_all
           (statistics_request (metrics_only (MetricArray ["A"; "C"])))
           "ms2_*" None (ok JNull) (ok response_at_root) [] "C" TypeError
           eq_refl eq_refl (or_intror (or_introl eq_refl)) eq_refl).
Defined.

Lemma missing_clause_throws_example :
  answer_for "http://mf:3030/v1/mf" "ms2"
    (Some "2016-05-10T17:35:57.610") (Some "2016-05-10T17:36:57.610")
    response_at_root "A" =
  Throw TypeError.
Proof.
  exact (missing_clause_throws "http://mf:3030/v1/mf" "ms2"
           (Some "2016-05-10T17:35:57.610") (Some "2016-05-10T17:36:57.610")
           response_at_root JUndefined "A" eq_refl (or_introl eq_refl)).
Defined.

Lemma no_first_hit_throws_example :
  answer_for "http://mf:3030/v1/mf" "ms2" None None response_without_hit "A" =
  Throw TypeError.
Proof.
  refine (no_first_hit_throws "http://mf:3030/v1/mf" "ms2" None None
            response_without_hit
            (JObj [("A_Stats", JObj [("count", JNum (inject_Z 3))]);
                   ("Minimum_A", top_hits 3 []);
                   ("Maximum_A", top_hits 3 [])])
            "A" (inject_Z 3) JUndefined eq_refl eq_refl _ eq_refl).
  intros Hzero. discriminate Hzero.
Defined.

Lemma store_errors_are_answered_200_example :
  run (get_workflow_statistics (statistics_request (metrics_only (MetricString "A"))))
      [failed "No Living connections"] =
  ([IndicesRefresh "ms2_*"],
   Some (Json 200 (JObj [("message", JStr "No Living connections")]))).
Proof.
  exact (proj1 (store_errors_are_answered_200
                  (statistics_request (metrics_only (MetricString "A")))
                  "ms2_*" None (failed "No Living connections")
                  (failed "No Living connections") []
                  (StoreError [("message", JStr "No Living connections")]) eq_refl)
               eq_refl).
Defined.

Lemma type_is_spliced_as_given_example :
  fields_of (MetricString "A") <> [] /\
  (aggregation_by (MetricString "A") (Some "AVSbT0Ch") =
   aggregation_by (MetricString "A") (Some "avsbt0ch") ->
   "AVSbT0Ch" = "avsbt0ch").
Proof.
  split; [discriminate|].
  exact (proj1 (type_is_spliced_as_given (MetricString "A") "f" "t" None
                  "AVSbT0Ch" "avsbt0ch" ltac:(discriminate))).
Defined.

Lemma fetch_by_id_answers_200_example :
  run (Configs.get_platform
         (with_params (statistics_request (metrics_only MetricUndefined))
            {| workflowID := EmptyString; taskID := EmptyString;
               experimentID := EmptyString; platformID := "Node09";
               id := EmptyString |}))
      [ok (JObj [("_id", JStr "node09"); ("found", JBool false)])] =
  ([Get "mf" "configurations" "node09"],
   Some (Json 200
           (JObj [("error",
                   JStr "Configuration for the platform'node09' is not found.")]))).
Proof.
  exact (proj1 (proj1 (fetch_by_id_answers_200
                         (with_params (statistics_request (metrics_only MetricUndefined))
                            {| workflowID := EmptyString; taskID := EmptyString;
                               experimentID := EmptyString; platformID := "Node09";
                               id := EmptyString |})
                         (ok (JObj [("_id", JStr "node09"); ("found", JBool false)]))
                         [])
                      [("_id", JStr "node09"); ("found", JBool false)] eq_refl)).
Defined.

Lemma json_copy_of_document_example : json_copy ms2 = Got ms2.
Proof. exact (proj1 (ListingFacts.json_copy_of_document ms2) eq_refl). Defined.


Lemma tasks_are_listed_by_name_example :
  exists listed,
    WorkflowsList.add_details [] (hit "ms2" ms2) =
    Got (define "ms2" (JObj listed) []) /\
    JsValue.own "tasks" listed = JArr [JStr "T1"; JStr "T2.1"] /\
    forall k, k <> "tasks" ->
      JsValue.own k listed =
      JsValue.own k
        [("application", JStr "Molecular Dynamics");
         ("tasks",
          JArr [JObj [("name", JStr "T1"); ("exec", JStr "/bin/t1")];
                JObj [("name", JStr "T2.1"); ("previous", JStr "T1")]])].
Proof.
  apply (proj1 (tasks_are_listed_by_name [] (hit "ms2" ms2) "ms2" _
                  eq_refl eq_refl eq_refl)
               [JObj [("name", JStr "T1"); ("exec", JStr "/bin/t1")];
                JObj [("name", JStr "T2.1"); ("previous", JStr "T1")]]
               [JStr "T1"; JStr "T2.1"] eq_refl).
  repeat constructor.
Defined.

Lemma configs_details_need_source_example :
  exists e,
    ConfigsList.get_details
      (JArr [hit "node01" node01; JObj [("_id", JStr "node02")]]) =
    Raised e.
Proof.
  exact (configs_details_need_source
           [hit "node01" node01; JObj [("_id", JStr "node02")]]
           (JObj [("_id", JStr "node02")])
           (or_intror (or_introl eq_refl)) eq_refl).
Defined.

Lemma nothing_to_list_is_404_example :
  play ConfigsList.get_all [ok (count 0)] =
  ([SearchCount "mf" "configurations"],
   Some (Sent 404 (JObj [("error", JStr "No configurations found.")])))
  /\
  play WorkflowsList.get_all [ok (count 0)] =
  ([SearchCount "mf" "workflows"],
   Some (Sent 404 (JObj [("error", JStr "No workflows found.")]))).
Proof.
  refine (nothing_to_list_is_404 (ok (count 0)) [] (inject_Z 0) _ _).
  - split; [reflexivity|]. eexists. split; reflexivity.
  - reflexivity.
Defined.

Lemma list_errors_are_forwarded_500_example :
  play ConfigsList.get_all [failed "No Living connections"] =
  ([SearchCount "mf" "configurations"],
   Some (Forwarded 500 (StoreError [("message", JStr "No Living connections")])))
  /\
  play WorkflowsList.get_all [failed "No Living connections"] =
  ([SearchCount "mf" "workflows"],
   Some (Forwarded 500 (StoreError [("message", JStr "No Living connections")]))).
Proof.
  exact (proj1 (list_errors_are_forwarded_500
                  (failed "No Living connections") (failed "No Living connections")
                  [] 0 (StoreError [("message", JStr "No Living connections")]))
               eq_refl).
Defined.

Lemma list_asks_for_the_count_example :
  play WorkflowsList.get_all [ok (count 1); ok (found 1 [hit "ms2" ms2])] =
  ([SearchCount "mf" "workflows"; SearchSize "mf" "workflows" (JNum (inject_Z 1))],
   Some (Sent 200 (JObj [("ms2", ms2_listed)]))).
Proof.
  refine (proj2 (proj1 (list_asks_for_the_count
                          (ok (count 1)) (ok (found 1 [hit "ms2" ms2])) [] eq_refl)
                       (inject_Z 1) _ (JArr [hit "ms2" ms2]) _ _ eq_refl eq_refl)
                _ eq_refl).
  - split; [reflexivity|]. eexists. split; reflexivity.
  - intros Hzero. discriminate Hzero.
Defined.

End FurtherInstances.
